(** * IoT Workbench: provisioning of Azure resources

    A shallow embedding of three TypeScript sources of the extension:
    - [Models/IoTHub.ts]         (class [IoTHub]),
    - [Models/AzureFunctions.ts] (class [AzureFunctions]),
    - [AzureOperator.ts]         (class [AzureOperator]).

    The classes are orchestration code: every method is a sequence of calls
    into VS Code, the Azure IoT Toolkit, the ARM web-site client and the
    configuration handler.  A method is embedded as a finite interaction
    program ([Prog]): a tree whose nodes are the calls the method makes, and
    whose branches are indexed by what the callee answers (a value, or a
    rejection).  Running a program against an arbitrary environment yields an
    outcome and the trace of calls; the theorems quantify over every
    environment. *)

From Stdlib Require Import Ascii String.
From stdpp Require Import strings gmap list.

Set Default Proof Using "Type".
Open Scope string_scope.

(** ** JavaScript strings and the three regular expressions of the sources *)

Module JS.

(** Truthiness of a [string | undefined] value: [undefined] and the empty
    string are falsy. *)
Definition truthy (v : option string) : bool :=
  match v with
  | None => false
  | Some s => negb (String.eqb s "")
  end.

(** [v || ''] on a [string | undefined] value. *)
Definition or_empty (v : option string) : string :=
  if truthy v then default "" v else "".

End JS.

(** The sources use three regular expressions, all of one shape: a literal
    followed by one capture group that repeats a negated one-character
    class.  The literals are [SharedAccessKey=] (group: any run without a
    semicolon), [/resourceGroups/] and [/sites/] (group: any run without a
    slash).

    [String.prototype.match] with such a (non-global) expression scans the
    start positions from left to right; at the first position where the
    literal matches, the greedy group takes every following character up to
    the first excluded one.  The result is the array of the whole match and
    the group, or [null]. *)

Module Regex.

(** [strip lit s] is the rest of [s] after the literal, when [s] starts
    with it. *)
Fixpoint strip (lit s : string) : option string :=
  match lit with
  | EmptyString => Some s
  | String a lit' =>
      match s with
      | EmptyString => None
      | String b s' => if Ascii.eqb a b then strip lit' s' else None
      end
  end.

(** The greedy group: the longest run without [stop]. *)
Fixpoint group (stop : ascii) (s : string) : string :=
  match s with
  | EmptyString => EmptyString
  | String c s' =>
      if Ascii.eqb c stop then EmptyString else String c (group stop s')
  end.

(** [s.match(re)] for the expression made of [lit] and the group. *)
Fixpoint exec (lit : string) (stop : ascii) (s : string)
  : option (list string) :=
  match strip lit s with
  | Some rest =>
      let g := group stop rest in Some [lit +:+ g; g]
  | None =>
      match s with
      | EmptyString => None
      | String _ s' => exec lit stop s'
      end
  end.

(** [c] does not occur in [s]. *)
Fixpoint free_of (c : ascii) (s : string) : Prop :=
  match s with
  | EmptyString => True
  | String a s' => a <> c /\ free_of c s'
  end.

(** [s] is empty or starts with [c]. *)
Definition ends_at (c : ascii) (s : string) : Prop :=
  match s with
  | EmptyString => True
  | String a _ => a = c
  end.

(** The literal occurs in [s] after [pre]. *)
Definition occurs_at (lit pre s : string) : Prop :=
  exists post, s = pre +:+ lit +:+ post.

Definition occurs (lit s : string) : Prop :=
  exists pre, occurs_at lit pre s.

(** [s] holds the text [lit ++ val] after [pre], where [val] is the
    maximal run of characters other than [stop]. *)
Definition segment_at (lit : string) (stop : ascii) (pre val s : string)
  : Prop :=
  exists post,
    s = pre +:+ lit +:+ val +:+ post /\ free_of stop val /\ ends_at stop post.

Definition segment (lit : string) (stop : ascii) (val s : string) : Prop :=
  exists pre, segment_at lit stop pre val s.

(** The occurrence after [pre] is the leftmost one. *)
Definition leftmost (lit pre s : string) : Prop :=
  forall pre', occurs_at lit pre' s -> String.length pre <= String.length pre'.

End Regex.

(** ** Values exchanged with the environment *)

(** Whatever a callee throws or rejects with. *)
Inductive ExternalError := Failure (reason : string).

(** What a method of the sources can throw: its own [new Error(message)], the
    [TypeError] of a property read on [undefined], or the error of a callee,
    rethrown as it is. *)
Inductive Error :=
| JsError (message : string)
| TypeError (message : string)
| Rejected (e : ExternalError).

(** [vscode.QuickPickItem]; [description] and [detail] are optional. *)
Record QuickPickItem := {
  label : string;
  description : option string;
  detail : option string
}.

Record QuickPickOptions := {
  placeHolder : string;
  ignoreFocusOut : bool
}.

(** Handles of objects that live outside the sources. *)
Inductive OutputChannel := Channel (id : nat).
Inductive Toolkit := ToolkitApi (id : nat).
Inductive ServiceClientCredentials := Credentials (id : nat).
Inductive WebSiteManagementClient := Client (id : nat).
Inductive IoTProject := Project (id : nat).
Inductive ExtensionContext := ExtContext (id : nat).

Inductive extensionName := ExtToolkit | ExtAzureAccount.

(** The object the toolkit resolves to.  [events] stands for the chain
    [properties.eventHubEndpoints.events]; it is [None] when a link of the
    chain is missing. *)
Record EventHubEndpoint := {
  endpoint : string;
  path : string
}.

Record IoTHubInfo := {
  iotHubConnectionString : option string;
  events : option EventHubEndpoint
}.

(** [azure-account.api]: the subscription filters of the signed-in account,
    as they are when a method reads them. *)
Record Subscription := {
  displayName : string;
  subscriptionId : string
}.

Record AzureSession := { credentials : ServiceClientCredentials }.

Record AzureResourceFilter := {
  session : AzureSession;
  subscription : Subscription
}.

Record AzureAccount := { filters : list AzureResourceFilter }.

(** [StringDictionary] of [azure-arm-website]: an ARM resource whose
    [properties] object maps setting names to values. *)
Record Resource := {
  resource_id : option string;
  resource_name : option string;
  resource_kind : option string;
  resource_type : option string
}.

Record StringDictionary := {
  resource : Resource;
  properties : option (gmap string string)
}.

(** The keys of [ConfigKey] (constants.ts) that the sources use. *)
Module ConfigKey.
Inductive t :=
| functionAppId
| eventHubConnectionString
| eventHubConnectionPath
| iotHubConnectionString.

Definition eqb (a b : t) : bool :=
  match a, b with
  | functionAppId, functionAppId
  | eventHubConnectionString, eventHubConnectionString
  | eventHubConnectionPath, eventHubConnectionPath
  | iotHubConnectionString, iotHubConnectionString => true
  | _, _ => false
  end.
End ConfigKey.

(** Arguments of [vscode.commands.executeCommand]. *)
Inductive Arg :=
| AString (s : string)
| AOptString (s : option string)
| ABool (b : bool)
| AObject (fields : list (string * string)).

(** ** Calls and outputs *)

(** A call into the environment, indexed by the type of its result.  Each can
    be answered by a value or by a rejection. *)
Inductive Call : Type -> Type :=
| showQuickPick (items : Error + list QuickPickItem) (options : QuickPickOptions)
  : Call (option QuickPickItem)
| getExtension (name : extensionName) : Call (option Toolkit)
| selectIoTHub (toolkit : Toolkit) (channel : option OutputChannel)
  : Call (option IoTHubInfo)
| createIoTHub (toolkit : Toolkit) (channel : option OutputChannel)
  : Call (option IoTHubInfo)
| ConfigHandler_update (key : ConfigKey.t) (value : string) : Call unit
| ConfigHandler_get (key : ConfigKey.t) : Call (option string)
| executeCommand (command : string) (args : list Arg) : Call (option string)
| existsSync (p : string) : Call bool
| new_WebSiteManagementClient
    (credential : ServiceClientCredentials) (subscriptionId : string)
  : Call WebSiteManagementClient
| listApplicationSettings
    (client : WebSiteManagementClient) (resourceGroup siteName : string)
  : Call StringDictionary
| updateApplicationSettings
    (client : WebSiteManagementClient) (resourceGroup siteName : string)
    (appSettings : StringDictionary)
  : Call unit
| ExceptionHelper_logError (message : string) (popup : bool) : Call unit
| new_IoTProject : Call IoTProject
| project_load (project : IoTProject) (rootPath : option string) : Call bool
| project_provision (project : IoTProject) : Call bool.

(** Writes that return nothing and do not fail: the output channel, the
    console and the timer of the progress dots. *)
Inductive LogValue :=
| LString (s : string)
| LOptString (s : option string)
| LSettings (d : StringDictionary).

Inductive Output :=
| channel_show (ch : OutputChannel)
| channel_appendLine (ch : OutputChannel) (line : string)
| channel_appendLine_JSON (ch : OutputChannel) (value : IoTHubInfo)
| console_log (values : list LogValue)
| setInterval (ms : nat)
| clearInterval.

(** ** Interaction programs *)

Inductive Prog (R : Type) : Type :=
| Ret (r : R)
| Throw (e : Error)
| Vis {X : Type} (c : Call X) (k : ExternalError + X -> Prog R)
| Out (o : Output) (k : Prog R).

Arguments Ret {R} r.
Arguments Throw {R} e.
Arguments Vis {R X} c k.
Arguments Out {R} o k.

Fixpoint bind {A B : Type} (p : Prog A) (f : A -> Prog B) : Prog B :=
  match p with
  | Ret r => f r
  | Throw e => Throw e
  | Vis c k => Vis c (fun r => bind (k r) f)
  | Out o k => Out o (bind k f)
  end.

(** [try { p } catch (error) { h error }]. *)
Fixpoint try_catch {A : Type} (p : Prog A) (h : Error -> Prog A) : Prog A :=
  match p with
  | Ret r => Ret r
  | Throw e => h e
  | Vis c k => Vis c (fun r => try_catch (k r) h)
  | Out o k => Out o (try_catch k h)
  end.

(** [await c], and also a synchronous call [c]: the result of the callee, or
    its error thrown at the call site. *)
Definition await {X : Type} (c : Call X) : Prog X :=
  Vis c (fun r =>
           match r with
           | inl e => Throw (Rejected e)
           | inr v => Ret v
           end).

(** A call to an asynchronous function whose promise is dropped: neither its
    value nor its rejection reaches the caller. *)
Definition detached {X : Type} (c : Call X) : Prog unit :=
  Vis c (fun _ => Ret tt).

Definition emit (o : Output) : Prog unit := Out o (Ret tt).

Declare Scope prog_scope.
Delimit Scope prog_scope with prog.
Bind Scope prog_scope with Prog.
Notation "x <- p ;; q" := (bind p (fun x => q))
  (at level 100, p at next level, right associativity) : prog_scope.
Notation "p ;; q" := (bind p (fun _ => q))
  (at level 100, right associativity) : prog_scope.
Open Scope prog_scope.

(** ** Running a program *)

Inductive Outcome (R : Type) :=
| Returned (r : R)
| Thrown (e : Error).

Arguments Returned {R} r.
Arguments Thrown {R} e.

Inductive Entry :=
| Called {X : Type} (c : Call X) (r : ExternalError + X)
| Emitted (o : Output).

Record Run (R W : Type) := {
  outcome : Outcome R;
  world : W;
  trace : list Entry
}.

Arguments outcome {R W} r.
Arguments world {R W} r.
Arguments trace {R W} r.

Definition logged {R W : Type} (e : Entry) (r : Run R W) : Run R W :=
  {| outcome := outcome r; world := world r; trace := e :: trace r |}.

(** An environment answers every call, and may change its state. *)
Definition Env (W : Type) : Type :=
  forall X : Type, Call X -> W -> (ExternalError + X) * W.

Fixpoint run {R W : Type} (env : Env W) (p : Prog R) (w : W) : Run R W :=
  match p with
  | Ret r => {| outcome := Returned r; world := w; trace := [] |}
  | Throw e => {| outcome := Thrown e; world := w; trace := [] |}
  | Vis c k =>
      let a := env _ c w in
      logged (Called c (fst a)) (run env (k (fst a)) (snd a))
  | Out o k => logged (Emitted o) (run env k w)
  end.

(** A computation without calls: its value is returned, its error thrown. *)
Definition lift {A : Type} (r : Error + A) : Prog A :=
  match r with
  | inl e => Throw e
  | inr a => Ret a
  end.

(** [v === s] for a [string | undefined] value [v]. *)
Definition strictEq (v : option string) (s : string) : bool :=
  match v with
  | Some x => String.eqb x s
  | None => false
  end.

(** ** Models/IoTHub.ts *)

Module IoTHub.

Record t := { channel : option OutputChannel }.

Definition name : string := "IoT Hub".

Definition load (this : t) : Prog bool := Ret true.

Definition create (this : t) : Prog bool := Ret true.

Definition provisionIothubSelection : list QuickPickItem :=
  [ {| label := "Select an existing IoT Hub";
       description := Some "Select an existing IoT Hub";
       detail := Some "select" |};
    {| label := "Create a new IoT Hub";
       description := Some "Create a new IoT Hub";
       detail := Some "create" |} ].

Definition provisionOptions : QuickPickOptions :=
  {| placeHolder := "Provision IoT Hub"; ignoreFocusOut := true |}.

(** [if (this.channel) { this.channel.show(); this.channel.appendLine(line); }] *)
Definition report (this : t) (line : string) : Prog unit :=
  match channel this with
  | Some ch => emit (channel_show ch) ;; emit (channel_appendLine ch line)
  | None => Ret tt
  end.

(** The same with [JSON.stringify(iothub, null, 2)] as the line. *)
Definition report_JSON (this : t) (iothub : IoTHubInfo) : Prog unit :=
  match channel this with
  | Some ch => emit (channel_show ch) ;; emit (channel_appendLine_JSON ch iothub)
  | None => Ret tt
  end.

Definition sharedAccessKeyMatches (connectionString : string)
  : option (list string) :=
  Regex.exec "SharedAccessKey=" ";" connectionString.

Definition parseError : Error :=
  JsError "Cannot parse shared access key from IoT Hub connection string. Please retry Azure Provision.".

(** The match, the check of its result, and [sharedAccessKeyMatches[1]]. *)
Definition sharedAccessKey (connectionString : string) : Error + string :=
  match sharedAccessKeyMatches connectionString with
  | None => inl parseError
  | Some m =>
      if (length m <? 2)%nat then inl parseError else inr (nth 1 m "")
  end.

(** [iothub.properties.eventHubEndpoints.events]. *)
Definition eventsOf (iothub : IoTHubInfo) : Error + EventHubEndpoint :=
  match events iothub with
  | Some ev => inr ev
  | None => inl (TypeError "Cannot read properties of undefined")
  end.

Definition eventHubConnectionStringOf (ev : EventHubEndpoint) (key : string)
  : string :=
  "Endpoint=" +:+ endpoint ev +:+
  ";SharedAccessKeyName=iothubowner;SharedAccessKey=" +:+ key.

Definition provision (this : t) : Prog bool :=
  selection <- await (showQuickPick (inr provisionIothubSelection) provisionOptions) ;;
  match selection with
  | None => Ret false
  | Some selection =>
      toolkit <- await (getExtension ExtToolkit) ;;
      match toolkit with
      | None =>
          Throw (JsError "Azure IoT Toolkit is not installed. Please install it from Marketplace.")
      | Some toolkit =>
          iothub <-
            (if strictEq (detail selection) "select" then
               await (selectIoTHub toolkit (channel this))
             else if strictEq (detail selection) "create" then
               (report this "Creating new IoT Hub..." ;;
                await (createIoTHub toolkit (channel this)))
             else Ret None) ;;
          match iothub with
          | Some iothub =>
              if JS.truthy (iotHubConnectionString iothub) then
                let connectionString := default "" (iotHubConnectionString iothub) in
                report_JSON this iothub ;;
                sharedAccessKey <- lift (sharedAccessKey connectionString) ;;
                ev <- lift (eventsOf iothub) ;;
                let eventHubConnectionString :=
                  eventHubConnectionStringOf ev sharedAccessKey in
                let eventHubConnectionPath := path ev in
                await (ConfigHandler_update ConfigKey.iotHubConnectionString
                         connectionString) ;;
                await (ConfigHandler_update ConfigKey.eventHubConnectionString
                         eventHubConnectionString) ;;
                await (ConfigHandler_update ConfigKey.eventHubConnectionPath
                         eventHubConnectionPath) ;;
                report this "IoT Hub provision succeeded." ;;
                Ret true
              else
                Throw (JsError "IoT Hub provision failed. Please check output window for detail.")
          | None => Ret false
          end
      end
  end.

End IoTHub.

(** ** Models/AzureFunctions.ts *)

Module AzureFunctions.

Record t := {
  channel : option OutputChannel;
  azureFunctionsPath : string;
  azureAccountExtension : option AzureAccount
}.

Definition name : string := "Azure Functions".

(** [array.push(x)] and [array.forEach(f)] on an accumulator. *)
Definition push {A : Type} (l : list A) (x : A) : list A := l ++ [x].

Definition forEach {A B : Type} (l : list A) (f : B -> A -> B) (acc : B) : B :=
  fold_left f l acc.

Definition noExtension : Error := JsError "Azure account extension is not found.".

Definition noSubscription : QuickPickItem :=
  {| label := "No subscription found";
     description := Some "";
     detail := Some "Click Azure account at bottom left corner and choose Select All" |}.

Definition getSubscriptionList (this : t) : Error + list QuickPickItem :=
  match azureAccountExtension this with
  | None => inl noExtension
  | Some ext =>
      let subscriptions := filters ext in
      let subscriptionList :=
        forEach subscriptions
          (fun acc item =>
             push acc {| label := displayName (subscription item);
                         description := Some (subscriptionId (subscription item));
                         detail := None |})
          [] in
      let subscriptionList :=
        if (length subscriptionList =? 0)%nat
        then push subscriptionList noSubscription
        else subscriptionList in
      inr subscriptionList
  end.

(** The loop over [subscriptions], with its early return. *)
Fixpoint findCredentials (subscriptions : list AzureResourceFilter)
  (id : string) : option ServiceClientCredentials :=
  match subscriptions with
  | [] => None
  | s :: rest =>
      if String.eqb (subscriptionId (subscription s)) id
      then Some (credentials (session s))
      else findCredentials rest id
  end.

Definition getCredentialFromSubscriptionId (this : t) (id : string)
  : Error + option ServiceClientCredentials :=
  match azureAccountExtension this with
  | None => inl noExtension
  | Some ext =>
      if negb (JS.truthy (Some id))
      then inl (JsError "Subscription ID is required.")
      else inr (findCredentials (filters ext) id)
  end.

Definition load (this : t) : Prog bool := Ret true.

Definition triggerSettings : Arg :=
  AObject [ ("connection", "eventHubConnectionString");
            ("path", "%eventHubConnectionPath%");
            ("consumerGroup", "$Default") ].

Definition create (this : t) : Prog bool :=
  let azureFunctionsPath := azureFunctionsPath this in
  emit (console_log [LString azureFunctionsPath]) ;;
  found <- await (existsSync azureFunctionsPath) ;;
  if negb found then
    Throw (JsError ("Azure Functions folder doesn't exist: " +:+ azureFunctionsPath))
  else
    try_catch
      (await (executeCommand "azureFunctions.createNewProject"
                [ AString azureFunctionsPath; AString "C#Script"; AString "~1";
                  ABool false; AString "IoTHubTrigger-CSharp";
                  AString "IoTHubTrigger1"; triggerSettings ]) ;;
       Ret true)
      (fun error => Throw error).

Definition subscriptionOptions : QuickPickOptions :=
  {| placeHolder := "Select Subscription"; ignoreFocusOut := true |}.

(** [id.match(re)], the check of its result, and [matches[1]]. *)
Definition capture (lit : string) (message : string) (id : string)
  : Error + string :=
  match Regex.exec lit "/" id with
  | None => inl (JsError message)
  | Some m =>
      if (length m <? 2)%nat then inl (JsError message) else inr (nth 1 m "")
  end.

(** The three assignments to [appSettings.properties]. *)
Definition inject (appSettings : StringDictionary)
  (eventHubConnectionString eventHubConnectionPath iotHubConnectionString
     : option string) : StringDictionary :=
  let p0 := default ∅ (properties appSettings) in
  let p1 := <["eventHubConnectionString" := JS.or_empty eventHubConnectionString]> p0 in
  let p2 := <["eventHubConnectionPath" := JS.or_empty eventHubConnectionPath]> p1 in
  let p3 := <["iotHubConnectionString" := JS.or_empty iotHubConnectionString]> p2 in
  {| resource := resource appSettings; properties := Some p3 |}.

Definition provision (this : t) : Prog bool :=
  try_catch
    (subscription <- await (showQuickPick (getSubscriptionList this)
                              subscriptionOptions) ;;
     match subscription with
     | None => Ret false
     | Some subscription =>
         if negb (JS.truthy (description subscription)) then Ret false
         else
           let subscriptionId := default "" (description subscription) in
           functionAppId <-
             await (executeCommand "azureFunctions.createFunctionApp"
                      [AString subscriptionId]) ;;
           if JS.truthy functionAppId then
             let functionAppId := default "" functionAppId in
             await (ConfigHandler_update ConfigKey.functionAppId functionAppId) ;;
             eventHubConnectionString <-
               await (ConfigHandler_get ConfigKey.eventHubConnectionString) ;;
             eventHubConnectionPath <-
               await (ConfigHandler_get ConfigKey.eventHubConnectionPath) ;;
             iotHubConnectionString <-
               await (ConfigHandler_get ConfigKey.iotHubConnectionString) ;;
             if negb (JS.truthy eventHubConnectionString)
                || negb (JS.truthy eventHubConnectionPath)
             then Throw (JsError "No event hub path or connection string found.")
             else
               credential <- lift (getCredentialFromSubscriptionId this subscriptionId) ;;
               match credential with
               | None =>
                   Throw (JsError ("Unable to get credential for the subscription, id:"
                                   +:+ subscriptionId +:+ "."))
               | Some credential =>
                   resourceGroup <-
                     lift (capture "/resourceGroups/"
                             "Cannot parse resource group from function app ID."
                             functionAppId) ;;
                   siteName <-
                     lift (capture "/sites/"
                             "Cannot parse function app name from function app ID."
                             functionAppId) ;;
                   client <- await (new_WebSiteManagementClient credential subscriptionId) ;;
                   emit (console_log [LString resourceGroup; LString siteName]) ;;
                   appSettings <-
                     await (listApplicationSettings client resourceGroup siteName) ;;
                   emit (console_log [LSettings appSettings]) ;;
                   let appSettings :=
                     inject appSettings eventHubConnectionString
                       eventHubConnectionPath iotHubConnectionString in
                   await (updateApplicationSettings client resourceGroup siteName
                            appSettings) ;;
                   Ret true
               end
           else
             Throw (JsError "Unable to create Azure Functions application. Please check the error and retry.")
     end)
    (fun error => Throw error).

(** [if (this.channel && deployPendding) { clearInterval(..); appendLine('.') }] *)
Definition stopDots (this : t) (deployPendding : bool) : Prog unit :=
  match channel this with
  | Some ch =>
      if deployPendding
      then emit clearInterval ;; emit (channel_appendLine ch ".")
      else Ret tt
  | None => Ret tt
  end.

Definition deploy (this : t) : Prog bool :=
  deployPendding <-
    match channel this with
    | Some ch =>
        emit (channel_show ch) ;;
        emit (channel_appendLine ch "Deploying Azure Functions App...") ;;
        emit (setInterval 1000) ;;
        Ret true
    | None => Ret false
    end ;;
  try_catch
    (let azureFunctionsPath := azureFunctionsPath this in
     functionAppId <- await (ConfigHandler_get ConfigKey.functionAppId) ;;
     await (executeCommand "azureFunctions.deploy"
              [AString azureFunctionsPath; AOptString functionAppId]) ;;
     emit (console_log [LString azureFunctionsPath; LOptString functionAppId]) ;;
     stopDots this deployPendding ;;
     Ret true)
    (fun error => stopDots this deployPendding ;; Throw error).

End AzureFunctions.

(** ** The interfaces of the components

    Both classes are declared [implements Component, Provisionable].  The
    declarations of the interfaces are not among the sources; the members
    below are those that both classes define. *)

Module ComponentType.
Inductive t := IoTHub | AzureFunctions.
End ComponentType.

Class Component (T : Type) := {
  name : T -> string;
  getComponentType : T -> ComponentType.t;
  load : T -> Prog bool;
  create : T -> Prog bool
}.

Class Provisionable (T : Type) := {
  provision : T -> Prog bool
}.

#[global] Instance IoTHub_Component : Component IoTHub.t := {|
  name := fun _ => IoTHub.name;
  getComponentType := fun _ => ComponentType.IoTHub;
  load := IoTHub.load;
  create := IoTHub.create
|}.

#[global] Instance IoTHub_Provisionable : Provisionable IoTHub.t := {|
  provision := IoTHub.provision
|}.

#[global] Instance AzureFunctions_Component : Component AzureFunctions.t := {|
  name := fun _ => AzureFunctions.name;
  getComponentType := fun _ => ComponentType.AzureFunctions;
  load := AzureFunctions.load;
  create := AzureFunctions.create
|}.

#[global] Instance AzureFunctions_Provisionable
  : Provisionable AzureFunctions.t := {|
  provision := AzureFunctions.provision
|}.

(** ** AzureOperator.ts *)

Module AzureOperator.

(** [rootPath] is [vscode.workspace.rootPath]. *)
Definition Provision (rootPath : option string) (context : ExtensionContext)
  : Prog unit :=
  (if negb (JS.truthy rootPath)
   then await (ExceptionHelper_logError
                 "Unable to find the root path, please open an IoT Studio project"
                 true)
   else Ret tt) ;;
  project <- await new_IoTProject ;;
  detached (project_load project rootPath) ;;
  detached (project_provision project) ;;
  Ret tt.

Definition Deploy (context : ExtensionContext) : Prog unit := Ret tt.

End AzureOperator.

(** ** Observations on traces *)

Definition is_output (en : Entry) : bool :=
  match en with
  | Called _ _ => false
  | Emitted _ => true
  end.

(** The error a call was answered with. *)
Definition rejection (en : Entry) : option ExternalError :=
  match en with
  | Called _ (inl e) => Some e
  | _ => None
  end.

Definition rejections (t : list Entry) : list ExternalError :=
  omap rejection t.

(** The first rejected call of a trace, and what follows it. *)
Fixpoint after_rejection (t : list Entry)
  : option (ExternalError * list Entry) :=
  match t with
  | [] => None
  | en :: t' =>
      match rejection en with
      | Some e => Some (e, t')
      | None => after_rejection t'
      end
  end.

(** The IoT Hub object the toolkit resolved to. *)
Definition hub_returned (en : Entry) : option IoTHubInfo :=
  match en with
  | Called c r =>
      match c in Call X return ExternalError + X -> option IoTHubInfo with
      | selectIoTHub _ _ | createIoTHub _ _ =>
          fun r => match r with inr (Some h) => Some h | _ => None end
      | _ => fun _ => None
      end r
  | Emitted _ => None
  end.

Definition hubs (t : list Entry) : list IoTHubInfo := omap hub_returned t.

(** A call of [ConfigHandler.update]: key, value and answer. *)
Definition update_of (en : Entry)
  : option (ConfigKey.t * string * (ExternalError + unit)) :=
  match en with
  | Called c r =>
      match c in Call X
            return ExternalError + X ->
                   option (ConfigKey.t * string * (ExternalError + unit)) with
      | ConfigHandler_update k v => fun r => Some (k, v, r)
      | _ => fun _ => None
      end r
  | Emitted _ => None
  end.

Definition updates (t : list Entry)
  : list (ConfigKey.t * string * (ExternalError + unit)) :=
  omap update_of t.

(** The function app id that [azureFunctions.createFunctionApp] resolved to. *)
Definition app_created (en : Entry) : option string :=
  match en with
  | Called c r =>
      match c in Call X return ExternalError + X -> option string with
      | executeCommand command _ =>
          fun r =>
            if String.eqb command "azureFunctions.createFunctionApp"
            then match r with inr (Some id) => Some id | _ => None end
            else None
      | _ => fun _ => None
      end r
  | Emitted _ => None
  end.

(** The steps of [IoTHub.provision] that are calls. *)
Inductive Step :=
| Pick (items : Error + list QuickPickItem)
| FindToolkit
| SelectHub
| CreateHub
| Persist (key : ConfigKey.t)
| Other.

Definition step_of (en : Entry) : option Step :=
  match en with
  | Called c _ =>
      Some match c with
           | showQuickPick items _ => Pick items
           | getExtension _ => FindToolkit
           | selectIoTHub _ _ => SelectHub
           | createIoTHub _ _ => CreateHub
           | ConfigHandler_update k _ => Persist k
           | _ => Other
           end
  | Emitted _ => None
  end.

Definition steps (t : list Entry) : list Step := omap step_of t.

(** What the quick pick resolved to. *)
Definition picked (en : Entry) : option (option QuickPickItem) :=
  match en with
  | Called c r =>
      match c in Call X return ExternalError + X -> option (option QuickPickItem) with
      | showQuickPick _ _ =>
          fun r => match r with inr v => Some v | inl _ => None end
      | _ => fun _ => None
      end r
  | Emitted _ => None
  end.

(** The project that [new IoTProject()] built. *)
Definition project_built (en : Entry) : option IoTProject :=
  match en with
  | Called c r =>
      match c in Call X return ExternalError + X -> option IoTProject with
      | new_IoTProject => fun r => match r with inr p => Some p | inl _ => None end
      | _ => fun _ => None
      end r
  | Emitted _ => None
  end.

Definition picked_project (t : list Entry) : option IoTProject :=
  head (omap project_built t).

(** Whether a call was answered by a value. *)
Definition resolved (en : Entry) : option bool :=
  match en with
  | Called _ (inr _) => Some true
  | Called _ (inl _) => Some false
  | Emitted _ => None
  end.

(** ** Propagation of errors, as a property of programs *)

(** [p] makes no further call and throws [err]. *)
Fixpoint settles {R : Type} (p : Prog R) (err : Error) : Prop :=
  match p with
  | Throw e => e = err
  | Out _ k => settles k err
  | Ret _ | Vis _ _ => False
  end.

(** Whenever a call of [p] is rejected, [p] settles with that error. *)
Fixpoint propagates {R : Type} (p : Prog R) : Prop :=
  match p with
  | Ret _ | Throw _ => True
  | Vis c k =>
      (forall e, settles (k (inl e)) (Rejected e)) /\
      (forall v, propagates (k (inr v)))
  | Out _ k => propagates k
  end.

(** ** A sample environment

    A scripted environment, to run the methods on concrete inputs.  The
    configuration handler is a store in memory, the function app keeps its
    application settings, and [fuse] counts down to the call that is
    rejected. *)

Record World := {
  fuse : option nat;
  picks : option QuickPickItem;
  toolkit : option Toolkit;
  hub : option IoTHubInfo;
  config : ConfigKey.t -> option string;
  createdApp : option string;
  folder : bool;
  settings : StringDictionary
}.

Definition set_fuse (f : option nat) (w : World) : World :=
  {| fuse := f; picks := picks w; toolkit := toolkit w; hub := hub w;
     config := config w; createdApp := createdApp w; folder := folder w;
     settings := settings w |}.

Definition set_config (k : ConfigKey.t) (v : string) (w : World) : World :=
  {| fuse := fuse w; picks := picks w; toolkit := toolkit w; hub := hub w;
     config := fun k' => if ConfigKey.eqb k k' then Some v else config w k';
     createdApp := createdApp w; folder := folder w; settings := settings w |}.

Definition set_settings (d : StringDictionary) (w : World) : World :=
  {| fuse := fuse w; picks := picks w; toolkit := toolkit w; hub := hub w;
     config := config w; createdApp := createdApp w; folder := folder w;
     settings := d |}.

Definition answer (X : Type) (c : Call X) (w : World) : X * World :=
  match c in Call X return X * World with
  | showQuickPick _ _ => (picks w, w)
  | getExtension _ => (toolkit w, w)
  | selectIoTHub _ _ => (hub w, w)
  | createIoTHub _ _ => (hub w, w)
  | ConfigHandler_update k v => (tt, set_config k v w)
  | ConfigHandler_get k => (config w k, w)
  | executeCommand command _ =>
      (if String.eqb command "azureFunctions.createFunctionApp"
       then createdApp w else None, w)
  | existsSync _ => (folder w, w)
  | new_WebSiteManagementClient _ _ => (Client 0, w)
  | listApplicationSettings _ _ _ => (settings w, w)
  | updateApplicationSettings _ _ _ d => (tt, set_settings d w)
  | ExceptionHelper_logError _ _ => (tt, w)
  | new_IoTProject => (Project 0, w)
  | project_load _ _ => (true, w)
  | project_provision _ => (true, w)
  end.

Definition scripted : Env World :=
  fun X c w =>
    match fuse w with
    | Some 0 => (inl (Failure "rejected"), set_fuse None w)
    | Some (S n) =>
        let a := answer X c w in (inr (fst a), set_fuse (Some n) (snd a))
    | None =>
        let a := answer X c w in (inr (fst a), snd a)
    end.

Definition hub0 : IoTHubInfo :=
  {| iotHubConnectionString :=
       Some "HostName=h.azure-devices.net;SharedAccessKeyName=iothubowner;SharedAccessKey=c2VjcmV0";
     events :=
       Some {| endpoint := "sb://ns.servicebus.windows.net/"; path := "h" |} |}.

Definition account0 : AzureAccount :=
  {| filters :=
       [ {| session := {| credentials := Credentials 7 |};
            subscription := {| displayName := "Pay-As-You-Go"; subscriptionId := "sub-1" |} |} ] |}.

Definition world0 : World :=
  {| fuse := None;
     picks := Some {| label := "Select an existing IoT Hub";
                      description := Some "Select an existing IoT Hub";
                      detail := Some "select" |};
     toolkit := Some (ToolkitApi 1);
     hub := Some hub0;
     config := fun _ => None;
     createdApp := Some "/subscriptions/sub-1/resourceGroups/rg/providers/Microsoft.Web/sites/app";
     folder := true;
     settings :=
       {| resource := {| resource_id := None; resource_name := Some "appsettings";
                         resource_kind := None; resource_type := None |};
          properties := Some {[ "FUNCTIONS_EXTENSION_VERSION" := "~1" ]} |} |}.

Definition hubComponent : IoTHub.t := {| IoTHub.channel := Some (Channel 0) |}.

Definition functions0 : AzureFunctions.t :=
  {| AzureFunctions.channel := Some (Channel 0);
     AzureFunctions.azureFunctionsPath := "/work/Functions";
     AzureFunctions.azureAccountExtension := Some account0 |}.

(** ** Definitions used in the statements *)

(** The quick pick item of a subscription filter. *)
Definition itemOf (f : AzureResourceFilter) : QuickPickItem :=
  {| label := displayName (subscription f);
     description := Some (subscriptionId (subscription f));
     detail := None |}.

(** The errors that [AzureFunctions.provision] throws while it validates, after
    the function app was created. *)
Definition validationMessages (subscriptionId : string) : list string :=
  [ "No event hub path or connection string found.";
    "Azure account extension is not found.";
    "Unable to get credential for the subscription, id:" +:+ subscriptionId +:+ ".";
    "Cannot parse resource group from function app ID.";
    "Cannot parse function app name from function app ID." ].

(** The calls of a complete run, in order. *)
Definition plan (hubStep : Step) : list Step :=
  [ Pick (inr IoTHub.provisionIothubSelection);
    FindToolkit;
    hubStep;
    Persist ConfigKey.iotHubConnectionString;
    Persist ConfigKey.eventHubConnectionString;
    Persist ConfigKey.eventHubConnectionPath ].

(** A connection string with two segments of the key, and an environment where
    the toolkit resolves to a hub with it. *)
Definition twoKeys : string := "HostName=h;SharedAccessKey=a;SharedAccessKey=b".

Definition worldTwoKeys : World :=
  {| fuse := None; picks := picks world0; toolkit := toolkit world0;
     hub := Some {| iotHubConnectionString := Some twoKeys;
                    events := events hub0 |};
     config := config world0; createdApp := createdApp world0;
     folder := folder world0; settings := settings world0 |}.

(** More sample environments. *)

Definition set_picks (p : option QuickPickItem) (w : World) : World :=
  {| fuse := fuse w; picks := p; toolkit := toolkit w; hub := hub w;
     config := config w; createdApp := createdApp w; folder := folder w;
     settings := settings w |}.

Definition set_hub (h : option IoTHubInfo) (w : World) : World :=
  {| fuse := fuse w; picks := picks w; toolkit := toolkit w; hub := h;
     config := config w; createdApp := createdApp w; folder := folder w;
     settings := settings w |}.

Definition subscriptionItem : QuickPickItem :=
  {| label := "Pay-As-You-Go"; description := Some "sub-1"; detail := None |}.

(** The quick pick is dismissed. *)
Definition worldDismissed : World := set_picks None world0.

(** The placeholder item is picked. *)
Definition worldNoSubscription : World :=
  set_picks (Some AzureFunctions.noSubscription) world0.

(** The IoT Hub was not provisioned: the configuration is empty. *)
Definition worldUnprovisioned : World := set_picks (Some subscriptionItem) world0.

(** The state that [IoTHub.provision] leaves, with the subscription picked. *)
Definition worldProvisioned : World :=
  set_picks (Some subscriptionItem)
    (world (run scripted (IoTHub.provision hubComponent) world0)).

(** The second call from now is rejected. *)
Definition worldFlaky : World := set_fuse (Some 1) worldProvisioned.

(** The key is the first segment of the connection string. *)
Definition keyFirst : string := "SharedAccessKey=c2VjcmV0;HostName=h.azure-devices.net".

Definition hubKeyFirst : IoTHubInfo :=
  {| iotHubConnectionString := Some keyFirst; events := events hub0 |}.

Definition worldKeyFirst : World := set_hub (Some hubKeyFirst) world0.

(** The runs of the samples. *)

Definition sampleApp : string :=
  "/subscriptions/sub-1/resourceGroups/rg/providers/Microsoft.Web/sites/app".

Definition runHub : Run bool World :=
  run scripted (IoTHub.provision hubComponent) world0.

Definition derivedHub : list (ConfigKey.t * string) :=
  [ (ConfigKey.iotHubConnectionString,
     "HostName=h.azure-devices.net;SharedAccessKeyName=iothubowner;SharedAccessKey=c2VjcmV0");
    (ConfigKey.eventHubConnectionString,
     "Endpoint=" +:+ "sb://ns.servicebus.windows.net/" +:+
     ";SharedAccessKeyName=iothubowner;SharedAccessKey=" +:+ "c2VjcmV0");
    (ConfigKey.eventHubConnectionPath, "h") ].

Definition runKeyFirst : Run bool World :=
  run scripted (IoTHub.provision hubComponent) worldKeyFirst.

Definition runTwoKeys : Run bool World :=
  run scripted (IoTHub.provision hubComponent) worldTwoKeys.

Definition runUnprovisioned : Run bool World :=
  run scripted (AzureFunctions.provision functions0) worldUnprovisioned.

Definition runProvisioned : Run bool World :=
  run scripted (AzureFunctions.provision functions0) worldProvisioned.

(** ** Resource ids and connection strings as lists of segments *)

Module Segments.

(** [s.split(c)]: the pieces of [s] between the occurrences of [c]. *)
Fixpoint pieces (c : ascii) (s : string) : list string :=
  match s with
  | EmptyString => [EmptyString]
  | String a s' =>
      if Ascii.eqb a c then EmptyString :: pieces c s'
      else match pieces c s' with
           | p :: ps => String a p :: ps
           | [] => [String a EmptyString]
           end
  end.

(** Every segment with [c] before it. *)
Fixpoint led (c : ascii) (segs : list string) : string :=
  match segs with
  | [] => EmptyString
  | s :: rest => String c (s +:+ led c rest)
  end.

(** Every segment with [c] after it. *)
Fixpoint closed (c : ascii) (segs : list string) : string :=
  match segs with
  | [] => EmptyString
  | s :: rest => s +:+ String c (closed c rest)
  end.

(** The segment that follows the first segment equal to [name], when that
    one has a follower. *)
Fixpoint next_after (name : string) (segs : list string) : option string :=
  match segs with
  | s :: rest =>
      match rest with
      | v :: _ => if String.eqb s name then Some v else next_after name rest
      | [] => None
      end
  | [] => None
  end.

End Segments.

(** The function app id of the ARM form, for a subscription, a resource group
    and a site. *)
Definition armId (subscription resourceGroup site : string) : string :=
  "/subscriptions/" +:+ subscription +:+ "/resourceGroups/" +:+ resourceGroup
  +:+ "/providers/Microsoft.Web/sites/" +:+ site.

(** The IoT Hub connection string of the usual form. *)
Definition hubConnectionString (host keyName key : string) : string :=
  "HostName=" +:+ host +:+ ";SharedAccessKeyName=" +:+ keyName
  +:+ ";SharedAccessKey=" +:+ key.

(** The resource group and the site of a call that reads or writes the
    application settings. *)
Definition settings_target (en : Entry) : option (string * string) :=
  match en with
  | Called c _ =>
      match c with
      | listApplicationSettings _ resourceGroup siteName =>
          Some (resourceGroup, siteName)
      | updateApplicationSettings _ resourceGroup siteName _ =>
          Some (resourceGroup, siteName)
      | _ => None
      end
  | Emitted _ => None
  end.

(** More observations on traces. *)

(** A command that was executed, with its arguments. *)
Definition command_of (en : Entry) : option (string * list Arg) :=
  match en with
  | Called c _ =>
      match c with
      | executeCommand command args => Some (command, args)
      | _ => None
      end
  | Emitted _ => None
  end.

(** A command that was executed and resolved. *)
Definition command_done (en : Entry) : option string :=
  match en with
  | Called c r =>
      match c in Call X return ExternalError + X -> option string with
      | executeCommand command _ =>
          fun r => match r with inr _ => Some command | inl _ => None end
      | _ => fun _ => None
      end r
  | Emitted _ => None
  end.

(** What [fs.existsSync] returned. *)
Definition folder_found (en : Entry) : option bool :=
  match en with
  | Called c r =>
      match c in Call X return ExternalError + X -> option bool with
      | existsSync _ => fun r => match r with inr b => Some b | inl _ => None end
      | _ => fun _ => None
      end r
  | Emitted _ => None
  end.

(** A value that [ConfigHandler.get] returned. *)
Definition read_of (en : Entry) : option (ConfigKey.t * option string) :=
  match en with
  | Called c r =>
      match c in Call X return ExternalError + X -> option (ConfigKey.t * option string) with
      | ConfigHandler_get k =>
          fun r => match r with inr v => Some (k, v) | inl _ => None end
      | _ => fun _ => None
      end r
  | Emitted _ => None
  end.

(** The accesses to the configuration. *)
Inductive Access :=
| Reads (key : ConfigKey.t)
| Writes (key : ConfigKey.t).

Definition access_of (en : Entry) : option Access :=
  match en with
  | Called c _ =>
      match c with
      | ConfigHandler_get k => Some (Reads k)
      | ConfigHandler_update k _ => Some (Writes k)
      | _ => None
      end
  | Emitted _ => None
  end.

(** The calls to the ARM client. *)
Inductive ArmCall := NewClient | ListSettings | UpdateSettings.

Definition arm_of (en : Entry) : option ArmCall :=
  match en with
  | Called c _ =>
      match c with
      | new_WebSiteManagementClient _ _ => Some NewClient
      | listApplicationSettings _ _ _ => Some ListSettings
      | updateApplicationSettings _ _ _ _ => Some UpdateSettings
      | _ => None
      end
  | Emitted _ => None
  end.

(** The client that was built: its credentials and subscription. *)
Definition client_of (en : Entry) : option (ServiceClientCredentials * string) :=
  match en with
  | Called c _ =>
      match c with
      | new_WebSiteManagementClient credential subscriptionId =>
          Some (credential, subscriptionId)
      | _ => None
      end
  | Emitted _ => None
  end.

(** The writes to the output channel and the console. *)
Definition output_of (en : Entry) : option Output :=
  match en with
  | Emitted o => Some o
  | Called _ _ => None
  end.

Definition is_timer (o : Output) : bool :=
  match o with
  | setInterval _ | clearInterval => true
  | _ => false
  end.

Definition timers (t : list Entry) : list Output :=
  filter (fun o => is_timer o = true) (omap output_of t).

(** The calls of [AzureOperator.Provision]. *)
Inductive OperatorStep :=
| LogError (message : string) (popup : bool)
| NewProject
| Load (project : IoTProject) (rootPath : option string)
| ProvisionProject (project : IoTProject)
| Elsewhere.

Definition operator_step (en : Entry) : option OperatorStep :=
  match en with
  | Called c _ =>
      Some match c with
           | ExceptionHelper_logError message popup => LogError message popup
           | new_IoTProject => NewProject
           | project_load p rootPath => Load p rootPath
           | project_provision p => ProvisionProject p
           | _ => Elsewhere
           end
  | Emitted _ => None
  end.

Definition set_created (id : option string) (w : World) : World :=
  {| fuse := fuse w; picks := picks w; toolkit := toolkit w; hub := hub w;
     config := config w; createdApp := id; folder := folder w;
     settings := settings w |}.

(** What the lookup of the toolkit returned. *)
Definition toolkit_found (en : Entry) : option (option Toolkit) :=
  match en with
  | Called c r =>
      match c in Call X return ExternalError + X -> option (option Toolkit) with
      | getExtension _ => fun r => match r with inr v => Some v | inl _ => None end
      | _ => fun _ => None
      end r
  | Emitted _ => None
  end.

Definition set_folder (b : bool) (w : World) : World :=
  {| fuse := fuse w; picks := picks w; toolkit := toolkit w; hub := hub w;
     config := config w; createdApp := createdApp w; folder := b;
     settings := settings w |}.

(** More runs of the samples. *)

Definition runDismissed : Run bool World :=
  run scripted (IoTHub.provision hubComponent) worldDismissed.

Definition runNoApp : Run bool World :=
  run scripted (AzureFunctions.provision functions0)
    (set_created None worldUnprovisioned).

(** The hub has a connection string without key, and no events endpoint. *)
Definition worldNoKey : World :=
  set_hub (Some {| iotHubConnectionString := Some "HostName=h"; events := None |})
    world0.

Definition runNoKey : Run bool World :=
  run scripted (IoTHub.provision hubComponent) worldNoKey.

(** ** Facts on strings and on the regular expressions *)

Module JSFacts.
Import JS.

Lemma app_cons (c : ascii) (s t : string) :
  String c s +:+ t = String c (s +:+ t).
Proof. reflexivity. Qed.

Lemma app_nil_l (t : string) : "" +:+ t = t.
Proof. reflexivity. Qed.

Lemma truthy_Some (v : option string) :
  truthy v = true -> exists s, v = Some s /\ s <> "".
Proof.
  destruct v as [s|]; simpl; [|discriminate].
  intros H. exists s. split; [reflexivity|].
  intros ->. discriminate.
Qed.

End JSFacts.

Module RegexFacts.
Import Regex.

Lemma strip_Some (lit s rest : string) :
  strip lit s = Some rest <-> s = lit +:+ rest.
Proof.
  revert s. induction lit as [|a lit IH]; intros s; simpl.
  - rewrite JSFacts.app_nil_l. split; congruence.
  - rewrite JSFacts.app_cons. destruct s as [|b s].
    + split; discriminate.
    + destruct (Ascii.eqb a b) eqn:E.
      * apply Ascii.eqb_eq in E. subst b. rewrite IH.
        split; [intros ->; reflexivity | congruence].
      * apply Ascii.eqb_neq in E. split; [discriminate | congruence].
Qed.

Lemma strip_app (lit rest : string) : strip lit (lit +:+ rest) = Some rest.
Proof. apply strip_Some. reflexivity. Qed.

Lemma group_segment (stop : ascii) (val post : string) :
  free_of stop val -> ends_at stop post -> group stop (val +:+ post) = val.
Proof.
  induction val as [|c val IH]; simpl.
  - intros _ Hpost. rewrite JSFacts.app_nil_l.
    destruct post as [|a post]; [reflexivity|].
    simpl in Hpost. subst a. simpl. rewrite Ascii.eqb_refl. reflexivity.
  - intros [Hc Hval] Hpost. rewrite ?JSFacts.app_cons; simpl.
    apply Ascii.eqb_neq in Hc. rewrite Hc, IH; auto.
Qed.

Lemma group_free (stop : ascii) (s : string) : free_of stop (group stop s).
Proof.
  induction s as [|c s IH]; simpl; [exact I|].
  destruct (Ascii.eqb c stop) eqn:E; simpl; [exact I|].
  apply Ascii.eqb_neq in E. auto.
Qed.

(** The leftmost occurrence decides the match. *)
Lemma exec_leftmost (lit : string) (stop : ascii) (pre val s : string) :
  segment_at lit stop pre val s ->
  leftmost lit pre s ->
  exec lit stop s = Some [lit +:+ val; val].
Proof.
  revert s. induction pre as [|c pre IH]; intros s (post & -> & Hval & Hpost) Hleft.
  - rewrite JSFacts.app_nil_l.
    destruct (lit +:+ val +:+ post) as [|a r] eqn:E; simpl;
      rewrite <- ?E; rewrite strip_app, group_segment by assumption;
      reflexivity.
  - rewrite JSFacts.app_cons. simpl.
    destruct (strip lit (String c (pre +:+ lit +:+ val +:+ post))) as [rest|] eqn:E.
    + apply strip_Some in E.
      specialize (Hleft "" (ex_intro _ rest E)). simpl in Hleft. lia.
    + apply IH.
      * exists post. auto.
      * intros pre' [post' E']. unfold leftmost in Hleft.
        specialize (Hleft (String c pre')).
        simpl in Hleft. enough (S (String.length pre) <= S (String.length pre')) by lia.
        apply Hleft. exists post'. rewrite !JSFacts.app_cons. f_equal. exact E'.
Qed.

(** No occurrence of the literal: the match is [null]. *)
Lemma exec_None (lit : string) (stop : ascii) (s : string) :
  ~ occurs lit s -> exec lit stop s = None.
Proof.
  induction s as [|c s IH]; intros Hno; simpl.
  - destruct (strip lit "") as [rest|] eqn:E; [|reflexivity].
    apply strip_Some in E. exfalso. apply Hno. exists "", rest. exact E.
  - destruct (strip lit (String c s)) as [rest|] eqn:E.
    + apply strip_Some in E. exfalso. apply Hno. exists "", rest. exact E.
    + apply IH. intros (pre & post & E'). apply Hno.
      exists (String c pre), post. rewrite JSFacts.app_cons, E'. reflexivity.
Qed.

Lemma group_split (stop : ascii) (s : string) :
  exists post, s = group stop s +:+ post /\ ends_at stop post.
Proof.
  induction s as [|c s (post & IH & Hpost)]; simpl.
  - exists "". split; reflexivity.
  - destruct (Ascii.eqb c stop) eqn:E.
    + apply Ascii.eqb_eq in E. exists (String c s). split; [reflexivity|exact E].
    + exists post. split; [|exact Hpost].
      rewrite JSFacts.app_cons. f_equal. exact IH.
Qed.

(** A match is the leftmost occurrence, with the maximal run after it. *)
Lemma exec_Some_leftmost (lit : string) (stop : ascii) (s : string)
  (m : list string) :
  exec lit stop s = Some m ->
  exists pre val,
    m = [lit +:+ val; val] /\ segment_at lit stop pre val s /\ leftmost lit pre s.
Proof.
  assert (forall s rest, s = lit +:+ rest ->
            exists pre val,
              [lit +:+ group stop rest; group stop rest] = [lit +:+ val; val] /\
              segment_at lit stop pre val s /\ leftmost lit pre s) as Hhere.
  { intros s0 rest ->. exists "", (group stop rest).
    split; [reflexivity|]. split.
    - destruct (group_split stop rest) as (post & Hrest & Hpost).
      exists post. split; [|split; [apply group_free | exact Hpost]].
      rewrite JSFacts.app_nil_l. f_equal. exact Hrest.
    - intros pre' _. simpl. lia. }
  induction s as [|c s IH]; simpl.
  - destruct (strip lit "") as [rest|] eqn:E; [|discriminate].
    apply strip_Some in E. intros [= <-]. apply Hhere, E.
  - destruct (strip lit (String c s)) as [rest|] eqn:E.
    + apply strip_Some in E. intros [= <-]. apply Hhere, E.
    + intros H. destruct (IH H) as (pre & val & -> & (post & Hs & Hval & Hpost) & Hleft).
      exists (String c pre), val. split; [reflexivity|]. split.
      * exists post. rewrite JSFacts.app_cons, <- Hs. auto.
      * intros [|c' pre'] [post' E'].
        -- rewrite JSFacts.app_nil_l in E'. apply strip_Some in E'. congruence.
        -- rewrite JSFacts.app_cons in E'. injection E' as _ E'.
           simpl. enough (String.length pre <= String.length pre') by lia.
           apply Hleft. exists post'. exact E'.
Qed.

End RegexFacts.

(** ** Symbolic execution against an arbitrary environment *)

(** Case analysis on the answer of the next call of the run in the goal. *)
Ltac answered :=
  match goal with
  | |- context [fst (?env ?X ?c ?w)] =>
      let e := fresh "e" in
      let v := fresh "v" in
      let w' := fresh "w" in
      destruct (env X c w) as [[e|v] w']; simpl
  end.

(** Case analysis on the value the program branches on. *)
Ltac branched :=
  match goal with
  | |- context [match ?x with _ => _ end] => is_var x; destruct x; simpl
  | |- context [match ?x with _ => _ end] =>
      match type of x with
      | option _ => destruct x eqn:?
      | bool => destruct x eqn:?
      | sum _ _ => destruct x eqn:?
      end; simpl
  | |- context [lift ?x] => destruct x eqn:?; simpl
  end.

Ltac executed :=
  simpl; repeat (first [answered | branched]);
  repeat match goal with u : unit |- _ => destruct u end.

(** Truthy values are strings that are not empty. *)
Ltac truthful :=
  repeat match goal with
    | H : negb (JS.truthy _) = false |- _ => apply negb_false_iff in H
    | H : negb (JS.truthy _) = true |- _ => apply negb_true_iff in H
    | H : _ || _ = false |- _ => apply orb_false_iff in H; destruct H
    | H : JS.truthy (description ?q) = _ |- _ =>
        is_var q; destruct q; simpl in *
    | H : JS.truthy ?v = true |- _ =>
        is_var v;
        let s := fresh "s" in
        let Hs := fresh "Hs" in
        destruct (JSFacts.truthy_Some v H) as (s & -> & Hs); clear H; simpl in *
    end.

(** ** The components *)

(** [load] of both components, and [create] of the IoT Hub, return [true]
    without any call. *)
Lemma components_load {W : Type} (env : Env W) (w : W)
  (iothub : IoTHub.t) (functions : AzureFunctions.t) :
  run env (load iothub) w = run env (Ret true) w /\
  run env (create iothub) w = run env (Ret true) w /\
  run env (load functions) w = run env (Ret true) w /\
  getComponentType iothub <> getComponentType functions.
Proof. repeat split. discriminate. Qed.

(** ** C10: the list of subscriptions *)

Module SubscriptionList.
Import AzureFunctions.

Lemma forEach_push (l : list AzureResourceFilter) (acc : list QuickPickItem) :
  forEach l (fun acc item => push acc (itemOf item)) acc = (acc ++ map itemOf l)%list.
Proof.
  unfold forEach, push. revert acc.
  induction l as [|f l IH]; intros acc; simpl.
  - rewrite app_nil_r. reflexivity.
  - rewrite IH, <- app_assoc. reflexivity.
Qed.

End SubscriptionList.

(** C10. When the Azure account extension is present, [getSubscriptionList]
    returns a list that is not empty: one item per subscription filter, in
    order, labelled with the display name and described by the subscription
    id; and with no filter, the single item labelled 'No subscription found'
    whose description is the empty string. *)
Theorem getSubscriptionList_nonempty
  (this : AzureFunctions.t) (account : AzureAccount) :
  AzureFunctions.azureAccountExtension this = Some account ->
  exists items,
    AzureFunctions.getSubscriptionList this = inr items /\
    items <> [] /\
    (filters account <> [] ->
     length items = length (filters account) /\
     forall i f, filters account !! i = Some f ->
       exists it, items !! i = Some it /\
         label it = displayName (subscription f) /\
         description it = Some (subscriptionId (subscription f))) /\
    (filters account = [] ->
     exists it, items = [it] /\
       label it = "No subscription found" /\ description it = Some "").
Proof.
  intros Hext. unfold AzureFunctions.getSubscriptionList. rewrite Hext.
  change (AzureFunctions.forEach (filters account) _ [])
    with (AzureFunctions.forEach (filters account)
            (fun acc item => AzureFunctions.push acc (itemOf item)) []).
  rewrite SubscriptionList.forEach_push. simpl.
  destruct (filters account) as [|f l] eqn:Hf.
  - simpl. eexists. split; [reflexivity|]. split; [discriminate|].
    split; [congruence|]. intros _. eexists. split; [reflexivity|]. split; reflexivity.
  - simpl. eexists. split; [reflexivity|]. split; [discriminate|].
    split; [|discriminate]. intros _. split.
    + simpl. rewrite length_map. reflexivity.
    + intros i g Hi.
      exists (itemOf g). split; [|split; reflexivity].
      change (itemOf f :: map itemOf l)
        with (map itemOf (f :: l)).
      rewrite list_lookup_fmap, Hi. reflexivity.
Qed.

Lemma getSubscriptionList_nonempty_witness :
  exists items,
    AzureFunctions.getSubscriptionList functions0 = inr items /\
    items <> [] /\
    (filters account0 <> [] ->
     length items = length (filters account0) /\
     forall i f, filters account0 !! i = Some f ->
       exists it, items !! i = Some it /\
         label it = displayName (subscription f) /\
         description it = Some (subscriptionId (subscription f))) /\
    (filters account0 = [] ->
     exists it, items = [it] /\
       label it = "No subscription found" /\ description it = Some "").
Proof. apply (getSubscriptionList_nonempty functions0 account0). reflexivity. Defined.

(** ** C5: the operator *)

(** [Provision] with a root path: the project is created, loaded from the
    root path, and asked to provision, in this order. *)
Lemma Provision_calls {W : Type} (env : Env W) (w : W)
  (rootPath : string) (context : ExtensionContext) :
  rootPath <> "" ->
  let r := run env (AzureOperator.Provision (Some rootPath) context) w in
  forall project, picked_project (trace r) = Some project ->
    exists a b,
      trace r = [ Called new_IoTProject (inr project);
                  Called (project_load project (Some rootPath)) a;
                  Called (project_provision project) b ] /\
      outcome r = Returned tt.
Proof.
  intros Hp r. subst r. unfold AzureOperator.Provision.
  assert (JS.truthy (Some rootPath) = true) as ->.
  { simpl. destruct (String.eqb_spec rootPath ""); [contradiction|reflexivity]. }
  executed; intros project; unfold picked_project; simpl;
    intros E; [discriminate | injection E as <- ..];
    do 2 eexists; split; reflexivity.
Qed.

(** C5. [AzureOperator.Deploy] has an empty body: it returns at once, without
    any call (none to a project). *)
Theorem Deploy_calls_nothing {W : Type} (env : Env W) (w : W)
  (context : ExtensionContext) :
  let r := run env (AzureOperator.Deploy context) w in
  trace r = [] /\ outcome r = Returned tt /\ world r = w.
Proof. simpl. auto. Qed.

#[local] Arguments JS.truthy : simpl never.
#[local] Arguments JS.or_empty : simpl never.
#[local] Arguments strictEq : simpl never.
#[local] Arguments IoTHub.sharedAccessKey : simpl never.
#[local] Arguments IoTHub.eventsOf : simpl never.
#[local] Arguments IoTHub.eventHubConnectionStringOf : simpl never.
#[local] Arguments AzureFunctions.capture : simpl never.
#[local] Arguments AzureFunctions.getSubscriptionList : simpl never.
#[local] Arguments AzureFunctions.getCredentialFromSubscriptionId : simpl never.
#[local] Arguments AzureFunctions.inject : simpl never.

(** ** C8: a dismissed quick pick *)

(** C8. When the quick pick of [IoTHub.provision] is dismissed, and when the
    quick pick of [AzureFunctions.provision] is dismissed or resolves to an
    item whose description is empty, the method returns [false] and the quick
    pick is the only call it made: no configuration value is written and
    nothing is created or updated. *)
Theorem provision_declined {W : Type} (env : Env W) (w : W) :
  (forall this : IoTHub.t,
      let pick := showQuickPick (inr IoTHub.provisionIothubSelection)
                    IoTHub.provisionOptions in
      let r := run env (IoTHub.provision this) w in
      fst (env _ pick w) = inr None ->
      outcome r = Returned false /\ trace r = [Called pick (inr None)]) /\
  (forall (this : AzureFunctions.t) (selection : option QuickPickItem),
      let pick := showQuickPick (AzureFunctions.getSubscriptionList this)
                    AzureFunctions.subscriptionOptions in
      let r := run env (AzureFunctions.provision this) w in
      fst (env _ pick w) = inr selection ->
      (selection = None \/
       exists item, selection = Some item /\
                    (description item = None \/ description item = Some "")) ->
      outcome r = Returned false /\ trace r = [Called pick (inr selection)]).
Proof.
  split.
  - intros this pick r. subst pick r. simpl.
    destruct (env _ _ w) as [a w']. simpl. intros ->. simpl. auto.
  - intros this selection pick r. subst pick r. simpl.
    destruct (env _ _ w) as [a w']. simpl. intros -> Hsel. simpl.
    destruct Hsel as [-> | (item & -> & Hd)]; simpl; [auto|].
    assert (JS.truthy (description item) = false) as ->
        by (destruct Hd as [-> | ->]; reflexivity).
    simpl. auto.
Qed.

(** ** C6: errors of callees *)

Section Propagation.

Context {R W : Type} (env : Env W).

Lemma settles_run (p : Prog R) (err : Error) (w : W) :
  settles p err ->
  outcome (run env p w) = Thrown err /\
  forallb is_output (trace (run env p w)) = true.
Proof.
  induction p as [r|e|X c k IH|o k IH]; simpl; try contradiction.
  - intros ->. auto.
  - intros H. destruct (IH H) as [-> ->]. auto.
Qed.

Lemma propagates_run (p : Prog R) :
  propagates p ->
  forall (w : W) (e : ExternalError) (rest : list Entry),
    after_rejection (trace (run env p w)) = Some (e, rest) ->
    outcome (run env p w) = Thrown (Rejected e) /\
    forallb is_output rest = true.
Proof.
  induction p as [r|e0|X c k IH|o k IH]; simpl; try discriminate.
  - intros [Hrej Hok] w e rest.
    destruct (env X c w) as [[e'|v] w']; simpl.
    + intros [= <- <-]. apply settles_run, Hrej.
    + apply IH, Hok.
  - intros H w e rest. apply IH, H.
Qed.

End Propagation.

Ltac propagated :=
  simpl;
  repeat match goal with
    | |- _ /\ _ => split
    | |- True => exact I
    | |- forall _, _ => intro
    | |- _ = _ => reflexivity
    | |- context [match ?x with _ => _ end] => destruct x; simpl
    | |- context [lift ?x] => destruct x; simpl
    end.

Lemma create_propagates (this : AzureFunctions.t) :
  propagates (AzureFunctions.create this).
Proof. propagated. Qed.

Lemma provision_propagates (this : AzureFunctions.t) :
  propagates (AzureFunctions.provision this).
Proof. propagated. Qed.

Lemma deploy_propagates (this : AzureFunctions.t) :
  propagates (AzureFunctions.deploy this).
Proof. unfold AzureFunctions.deploy, AzureFunctions.stopDots. propagated. Qed.

(** C6. In [create], [provision] and [deploy] of [AzureFunctions], when a call
    is answered by an error, the method makes no further call (the writes to
    the output channel apart) and throws that same error. *)
Theorem errors_rethrown {W : Type} (env : Env W) (w : W)
  (this : AzureFunctions.t) (p : Prog bool) :
  In p [ AzureFunctions.create this;
         AzureFunctions.provision this;
         AzureFunctions.deploy this ] ->
  forall (e : ExternalError) (rest : list Entry),
    after_rejection (trace (run env p w)) = Some (e, rest) ->
    outcome (run env p w) = Thrown (Rejected e) /\
    forallb is_output rest = true.
Proof.
  intros [<- | [<- | [<- | []]]]; apply propagates_run.
  - apply create_propagates.
  - apply provision_propagates.
  - apply deploy_propagates.
Qed.

(** ** C9: the function app id is stored before the validations *)

Lemma truthy_default (v : option string) :
  negb (JS.truthy v) = false -> JS.truthy (Some (default "" v)) = true.
Proof.
  intros H. apply negb_false_iff in H.
  destruct (JSFacts.truthy_Some v H) as (s & -> & _). exact H.
Qed.

Lemma capture_error (lit message id : string) (e : Error) :
  AzureFunctions.capture lit message id = inl e -> e = JsError message.
Proof.
  unfold AzureFunctions.capture.
  destruct (Regex.exec lit "/" id) as [m|]; [|congruence].
  destruct (length m <? 2)%nat; congruence.
Qed.

Lemma credential_error (this : AzureFunctions.t) (id : string) (e : Error) :
  AzureFunctions.getCredentialFromSubscriptionId this id = inl e ->
  JS.truthy (Some id) = true ->
  e = AzureFunctions.noExtension.
Proof.
  unfold AzureFunctions.getCredentialFromSubscriptionId.
  destruct (AzureFunctions.azureAccountExtension this); [|congruence].
  intros H Ht. rewrite Ht in H. discriminate.
Qed.


(** C9. When [azureFunctions.createFunctionApp] resolves to a function app id,
    the call that follows it stores the id under [functionAppId]: it comes
    before the reads of the event hub values, the lookup of the credential and
    the parsing of the id.  So whenever [provision] then throws one of its own
    errors, which are the validation errors, that update was made and had
    succeeded. *)
Theorem functionAppId_persisted_first {W : Type} (env : Env W) (w : W)
  (this : AzureFunctions.t) (id : string) :
  let r := run env (AzureFunctions.provision this) w in
  In id (omap app_created (trace r)) ->
  id <> "" ->
  exists pick subscriptionId answer rest,
    trace r =
      Called (showQuickPick (AzureFunctions.getSubscriptionList this)
                AzureFunctions.subscriptionOptions) (inr pick)
      :: Called (executeCommand "azureFunctions.createFunctionApp"
                   [AString subscriptionId]) (inr (Some id))
      :: Called (ConfigHandler_update ConfigKey.functionAppId id) answer
      :: rest /\
    omap update_of rest = [] /\
    (forall message,
        outcome r = Thrown (JsError message) ->
        answer = inr tt /\ In message (validationMessages subscriptionId)).
Proof.
  intros r. subst r. executed.
  all: intros Hin Hne; simpl in Hin;
    repeat match goal with
      | H : _ \/ _ |- _ => destruct H
      | H : False |- _ => destruct H
      end; subst.
  all: try match goal with
         | H : JS.truthy (Some ?s) = false |- _ =>
             exfalso; unfold JS.truthy in H;
             destruct (String.eqb_spec s ""); [contradiction | discriminate]
         end.
  all: do 4 eexists; (split; [reflexivity|]); (split; [reflexivity|]);
    intros message; try discriminate.
  all: repeat match goal with
         | H : AzureFunctions.capture _ _ _ = inl _ |- _ =>
             apply capture_error in H; subst
         | H : AzureFunctions.getCredentialFromSubscriptionId _ _ = inl _ |- _ =>
             apply credential_error in H;
             [subst | apply truthy_default; assumption]
         end.
  all: unfold AzureFunctions.noExtension;
    intros H; inversion H; subst; split; [reflexivity|]; simpl; tauto.
Qed.

(** ** C4: the application settings *)

Lemma inject_frame (d : StringDictionary) (a b c : option string) (k : string) :
  k <> "eventHubConnectionString" ->
  k <> "eventHubConnectionPath" ->
  k <> "iotHubConnectionString" ->
  default ∅ (properties (AzureFunctions.inject d a b c)) !! k =
  default ∅ (properties d) !! k.
Proof.
  intros H1 H2 H3. unfold AzureFunctions.inject. simpl.
  rewrite !lookup_insert_ne by congruence. reflexivity.
Qed.

Lemma inject_values (d : StringDictionary) (a b c : option string) :
  let p := default ∅ (properties (AzureFunctions.inject d a b c)) in
  p !! "eventHubConnectionString" = Some (default "" a) /\
  p !! "eventHubConnectionPath" = Some (default "" b) /\
  p !! "iotHubConnectionString" = Some (default "" c).
Proof.
  assert (forall v, JS.or_empty v = default "" v) as Hor.
  { intros [s|]; [|reflexivity]. unfold JS.or_empty, JS.truthy. simpl.
    destruct (String.eqb_spec s ""); simpl; congruence. }
  unfold AzureFunctions.inject. simpl. rewrite !Hor.
  repeat split.
  - rewrite !lookup_insert_ne by discriminate. apply lookup_insert_eq.
  - rewrite lookup_insert_ne by discriminate. apply lookup_insert_eq.
  - apply lookup_insert_eq.
Qed.

(** C4. On a run of [AzureFunctions.provision] that returns [true], the
    settings are read once and written once, to the same site with the same
    client.  The settings written are those read, where
    [eventHubConnectionString], [eventHubConnectionPath] and
    [iotHubConnectionString] hold the values that [ConfigHandler.get] returned
    for these keys (the empty string for an absent value); every other
    setting, and the rest of the resource, is as it was read. *)
Theorem settings_injected {W : Type} (env : Env W) (w : W)
  (this : AzureFunctions.t) :
  let r := run env (AzureFunctions.provision this) w in
  outcome r = Returned true ->
  exists item subscriptionId functionAppId connection path iot credential
         client resourceGroup siteName read written,
    trace r =
      [ Called (showQuickPick (AzureFunctions.getSubscriptionList this)
                  AzureFunctions.subscriptionOptions) (inr (Some item));
        Called (executeCommand "azureFunctions.createFunctionApp"
                  [AString subscriptionId]) (inr (Some functionAppId));
        Called (ConfigHandler_update ConfigKey.functionAppId functionAppId) (inr tt);
        Called (ConfigHandler_get ConfigKey.eventHubConnectionString) (inr connection);
        Called (ConfigHandler_get ConfigKey.eventHubConnectionPath) (inr path);
        Called (ConfigHandler_get ConfigKey.iotHubConnectionString) (inr iot);
        Called (new_WebSiteManagementClient credential subscriptionId) (inr client);
        Emitted (console_log [LString resourceGroup; LString siteName]);
        Called (listApplicationSettings client resourceGroup siteName) (inr read);
        Emitted (console_log [LSettings read]);
        Called (updateApplicationSettings client resourceGroup siteName written)
          (inr tt) ] /\
    resource written = resource read /\
    (exists settings, properties written = Some settings /\
       settings !! "eventHubConnectionString" = Some (default "" connection) /\
       settings !! "eventHubConnectionPath" = Some (default "" path) /\
       settings !! "iotHubConnectionString" = Some (default "" iot) /\
       forall k : string,
         k <> "eventHubConnectionString" ->
         k <> "eventHubConnectionPath" ->
         k <> "iotHubConnectionString" ->
         settings !! k = default ∅ (properties read) !! k).
Proof.
  intros r. subst r. executed; try discriminate.
  intros _. truthful. do 12 eexists. split; [reflexivity|]. split; [reflexivity|].
  match goal with
  | |- context [AzureFunctions.inject ?d ?a ?b ?c] =>
      pose proof (inject_values d a b c) as (Ha & Hb & Hc);
      pose proof (inject_frame d a b c) as Hk;
      exists (default ∅ (properties (AzureFunctions.inject d a b c)))
  end.
  split; [reflexivity|]. auto.
Qed.

(** ** The shared access key *)

Lemma sharedAccessKey_leftmost (connectionString pre key : string) :
  Regex.segment_at "SharedAccessKey=" ";" pre key connectionString ->
  Regex.leftmost "SharedAccessKey=" pre connectionString ->
  IoTHub.sharedAccessKey connectionString = inr key.
Proof.
  intros Hseg Hleft.
  unfold IoTHub.sharedAccessKey, IoTHub.sharedAccessKeyMatches.
  rewrite (RegexFacts.exec_leftmost _ _ _ _ _ Hseg Hleft). reflexivity.
Qed.

Lemma sharedAccessKey_absent (connectionString : string) :
  ~ Regex.occurs "SharedAccessKey=" connectionString ->
  IoTHub.sharedAccessKey connectionString = inl IoTHub.parseError.
Proof.
  intros Hno.
  unfold IoTHub.sharedAccessKey, IoTHub.sharedAccessKeyMatches.
  rewrite (RegexFacts.exec_None _ _ _ Hno). reflexivity.
Qed.

(** The key that is extracted is always the one after the leftmost
    occurrence. *)
Lemma sharedAccessKey_inr (connectionString key : string) :
  IoTHub.sharedAccessKey connectionString = inr key ->
  exists pre,
    Regex.segment_at "SharedAccessKey=" ";" pre key connectionString /\
    Regex.leftmost "SharedAccessKey=" pre connectionString.
Proof.
  unfold IoTHub.sharedAccessKey, IoTHub.sharedAccessKeyMatches.
  destruct (Regex.exec _ _ _) as [m|] eqn:E; [|discriminate].
  destruct (RegexFacts.exec_Some_leftmost _ _ _ _ E) as (pre & val & -> & Hseg & Hleft).
  simpl. intros [= <-]. exists pre. auto.
Qed.

Lemma eventsOf_inr (iothub : IoTHubInfo) (ev : EventHubEndpoint) :
  IoTHub.eventsOf iothub = inr ev -> events iothub = Some ev.
Proof.
  unfold IoTHub.eventsOf. destruct (events iothub); congruence.
Qed.

Lemma eventsOf_Some (iothub : IoTHubInfo) (ev : EventHubEndpoint) :
  events iothub = Some ev -> IoTHub.eventsOf iothub = inr ev.
Proof. unfold IoTHub.eventsOf. intros ->. reflexivity. Qed.

Lemma truthy_nonempty (s : string) : s <> "" -> JS.truthy (Some s) = true.
Proof.
  intros H. unfold JS.truthy.
  destruct (String.eqb_spec s ""); [contradiction|reflexivity].
Qed.

Lemma strictEq_true (v : option string) (s : string) :
  strictEq v s = true <-> v = Some s.
Proof.
  unfold strictEq. destruct v as [x|].
  - rewrite String.eqb_eq. split; congruence.
  - split; discriminate.
Qed.

(** Facts on the IoT Hub object that the case analysis left as equations. *)
Ltac hub_facts :=
  repeat match goal with
    | H : IoTHub.eventsOf _ = inr _ |- _ => apply eventsOf_inr in H
    | H : JS.truthy (iotHubConnectionString ?h) = true |- _ =>
        let s := fresh "cs" in
        let Hs := fresh "Hcs" in
        destruct (JSFacts.truthy_Some _ H) as (s & Hs & _);
        clear H; rewrite Hs in *; simpl in *
    end.

(** ** C3: what a successful run persists *)

(** C3. On a run of [IoTHub.provision] that returns [true], an IoT Hub was
    selected or created, its connection string was parsed, and the calls of
    [ConfigHandler.update] are exactly three, all answered: the connection
    string of the hub under [iotHubConnectionString], the derived string under
    [eventHubConnectionString] and the path of the events endpoint under
    [eventHubConnectionPath].  No other key is written. *)
Theorem provision_persists {W : Type} (env : Env W) (w : W) (this : IoTHub.t) :
  let r := run env (IoTHub.provision this) w in
  outcome r = Returned true ->
  exists iothub connectionString key ev,
    hubs (trace r) = [iothub] /\
    iotHubConnectionString iothub = Some connectionString /\
    IoTHub.sharedAccessKey connectionString = inr key /\
    events iothub = Some ev /\
    updates (trace r) =
      [ (ConfigKey.iotHubConnectionString, connectionString, inr tt);
        (ConfigKey.eventHubConnectionString,
         "Endpoint=" +:+ endpoint ev +:+
         ";SharedAccessKeyName=iothubowner;SharedAccessKey=" +:+ key,
         inr tt);
        (ConfigKey.eventHubConnectionPath, path ev, inr tt) ].
Proof.
  intros r. subst r. unfold IoTHub.provision, IoTHub.report, IoTHub.report_JSON.
  executed; try discriminate.
  all: intros _; hub_facts; do 4 eexists;
    repeat (split; [first [reflexivity | eassumption]|]); reflexivity.
Qed.

(** ** C2: the derived event hub values *)

(** C2. When the toolkit resolves to an IoT Hub object with a connection
    string that is not empty, with an events endpoint, and whose connection
    string yields the shared access key [key], the values that
    [IoTHub.provision] hands to [ConfigHandler.update] are, in this order, the
    connection string itself, the text ['Endpoint=' + endpoint +
    ';SharedAccessKeyName=iothubowner;SharedAccessKey=' + key], and the path of
    the events endpoint.  The first is always handed over; all three are, and
    the method returns [true], when no call is rejected. *)
Theorem eventHub_derived {W : Type} (env : Env W) (w : W) (this : IoTHub.t)
  (iothub : IoTHubInfo) (connectionString key : string) (ev : EventHubEndpoint) :
  let r := run env (IoTHub.provision this) w in
  let derived :=
    [ (ConfigKey.iotHubConnectionString, connectionString);
      (ConfigKey.eventHubConnectionString,
       "Endpoint=" +:+ endpoint ev +:+
       ";SharedAccessKeyName=iothubowner;SharedAccessKey=" +:+ key);
      (ConfigKey.eventHubConnectionPath, path ev) ] in
  In iothub (hubs (trace r)) ->
  iotHubConnectionString iothub = Some connectionString ->
  connectionString <> "" ->
  events iothub = Some ev ->
  IoTHub.sharedAccessKey connectionString = inr key ->
  (exists n, 0 < n /\ map fst (updates (trace r)) = take n derived) /\
  (rejections (trace r) = [] ->
   outcome r = Returned true /\ map fst (updates (trace r)) = derived).
Proof.
  intros r derived. subst r derived.
  unfold IoTHub.provision, IoTHub.report, IoTHub.report_JSON.
  executed.
  all: intros Hin Hcs Hne Hev Hkey; simpl in Hin;
    repeat match goal with
      | H : _ \/ _ |- _ => destruct H
      | H : False |- _ => destruct H
      end; subst.
  all: apply truthy_nonempty in Hne; apply eventsOf_Some in Hev;
    rewrite ?Hcs in *; simpl in *; try congruence.
  all: assert (ev = e) as <- by congruence; assert (key = s) as <- by congruence.
  all: unfold IoTHub.eventHubConnectionStringOf; split;
    [ first [ exists 1; split; [lia | reflexivity]
            | exists 2; split; [lia | reflexivity]
            | exists 3; split; [lia | reflexivity] ]
    | intros Hrej; first [discriminate Hrej | split; reflexivity] ].
Qed.

(** ** C1: the extraction of the shared access key *)

(** C1, as amended.  Let the toolkit resolve to an IoT Hub object with the
    connection string [connectionString].  When the leftmost occurrence of
    the text 'SharedAccessKey=' is followed by [key], the maximal run without
    a semicolon, then [key] is the shared access key that [IoTHub.provision]
    extracts, and every event hub connection string it hands to
    [ConfigHandler.update] ends with it.  When the text does not occur in the
    connection string, [provision] throws and hands nothing to
    [ConfigHandler.update]. *)
Theorem sharedAccessKey_extracted {W : Type} (env : Env W) (w : W)
  (this : IoTHub.t) (iothub : IoTHubInfo) (connectionString : string) :
  let r := run env (IoTHub.provision this) w in
  In iothub (hubs (trace r)) ->
  iotHubConnectionString iothub = Some connectionString ->
  (forall pre key,
      Regex.segment_at "SharedAccessKey=" ";" pre key connectionString ->
      Regex.leftmost "SharedAccessKey=" pre connectionString ->
      IoTHub.sharedAccessKey connectionString = inr key /\
      forall value answer,
        In (ConfigKey.eventHubConnectionString, value, answer) (updates (trace r)) ->
        exists ev,
          events iothub = Some ev /\
          value = "Endpoint=" +:+ endpoint ev +:+
                  ";SharedAccessKeyName=iothubowner;SharedAccessKey=" +:+ key) /\
  (~ Regex.occurs "SharedAccessKey=" connectionString ->
   (exists e, outcome r = Thrown e) /\ updates (trace r) = []).
Proof.
  intros r. subst r.
  unfold IoTHub.provision, IoTHub.report, IoTHub.report_JSON.
  executed.
  all: intros Hin Hcs; simpl in Hin;
    repeat match goal with
      | H : _ \/ _ |- _ => destruct H
      | H : False |- _ => destruct H
      end; subst.
  all: rewrite ?Hcs in *; simpl in *.
  all: split;
    try (intros Hno; pose proof (sharedAccessKey_absent _ Hno) as Hkey;
         first [congruence | split; [eexists; reflexivity | reflexivity]]).
  all: intros pre key Hseg Hleft;
    pose proof (sharedAccessKey_leftmost _ _ _ Hseg Hleft) as Hkey;
    split; [exact Hkey|]; intros value answer Hup.
  all: repeat match goal with
         | H : _ \/ _ |- _ => destruct H
         | H : False |- _ => destruct H
         | H : (_, _, _) = (_, _, _) |- _ => inversion H; clear H; subst
         end.
  all: match goal with
       | H : IoTHub.eventsOf _ = inr ?e |- _ =>
           exists e; split; [apply eventsOf_inr, H|];
           unfold IoTHub.eventHubConnectionStringOf; congruence
       end.
Qed.

(** C1, as it is stated, fails on a connection string with two such segments:
    ['SharedAccessKey=b'] is a segment of [twoKeys], and the key that
    [provision] extracts and uses is ['a']. *)
Lemma second_segment_not_extracted :
  Regex.segment "SharedAccessKey=" ";" "b" twoKeys /\
  IoTHub.sharedAccessKey twoKeys = inr "a" /\
  IoTHub.sharedAccessKey twoKeys <> inr "b" /\
  hubs (trace runTwoKeys) = [ {| iotHubConnectionString := Some twoKeys;
                                 events := events hub0 |} ] /\
  map fst (updates (trace runTwoKeys)) =
    [ (ConfigKey.iotHubConnectionString, twoKeys);
      (ConfigKey.eventHubConnectionString,
       "Endpoint=sb://ns.servicebus.windows.net/;SharedAccessKeyName=iothubowner;SharedAccessKey=a");
      (ConfigKey.eventHubConnectionPath, "h") ].
Proof.
  split.
  - exists "HostName=h;SharedAccessKey=a;", "". split; [reflexivity|].
    split; simpl; [|exact I]. split; [discriminate | exact I].
  - split; [reflexivity|]. split; [discriminate|]. split; reflexivity.
Qed.

(** ** C7: the order of the steps *)


Lemma strictEq_false (v : option string) (s : string) :
  strictEq v s = false -> v <> Some s.
Proof.
  intros H E. apply strictEq_true in E. congruence.
Qed.

Ltac choices :=
  repeat match goal with
    | H : strictEq _ _ = true |- _ => apply strictEq_true in H
    | H : strictEq _ _ = false |- _ => apply strictEq_false in H
    end.

Lemma sharedAccessKey_nonempty (connectionString key : string) :
  IoTHub.sharedAccessKey connectionString = inr key ->
  JS.truthy (Some connectionString) = true.
Proof.
  intros H. apply truthy_nonempty. intros ->. discriminate H.
Qed.

Lemma eventsOf_inl (iothub : IoTHubInfo) (e : Error) :
  IoTHub.eventsOf iothub = inl e -> events iothub = None.
Proof.
  unfold IoTHub.eventsOf. destruct (events iothub); [discriminate | reflexivity].
Qed.

(** What stopped the run, as equations on the hub. *)
Ltac hub_stops :=
  repeat match goal with
    | H : IoTHub.eventsOf _ = inl _ |- _ => apply eventsOf_inl in H
    end.

(** The values that are persisted for a hub, a key and an events endpoint. *)
Ltac persisted_values :=
  let iothub := fresh "iothub" in
  let cs := fresh "connectionString" in
  let key := fresh "key" in
  let ev := fresh "ev" in
  let Hh := fresh "Hh" in
  let Hc := fresh "Hc" in
  let Hk := fresh "Hk" in
  let He := fresh "He" in
  intros iothub cs key ev Hh Hc Hk He; simpl in Hh;
  first [ discriminate Hh
        | inversion Hh; subst;
          pose proof (sharedAccessKey_nonempty _ _ Hk);
          first [ congruence
                | split; [lia|];
                  unfold IoTHub.eventHubConnectionStringOf; simpl; congruence ] ].

(** The run in the goal makes the first [n] calls of the plan. *)
Ltac planned n s :=
  exists n, s;
  split; [lia|];
  split; [reflexivity|];
  split; [auto|];
  split; [reflexivity|];
  split;
  [ intros Hn;
    first [ exfalso; lia
          | eexists; split; [reflexivity|]; simpl; intuition congruence ] |];
  split;
  [ intros Hn;
    first [ exfalso; lia
          | do 3 eexists; split; [reflexivity|]; split; eassumption ] |];
  split;
  [ let Hp := fresh "Hp" in
    intros ? Hp; simpl in Hp; first [lia | discriminate Hp] |];
  split;
  [ let Hp := fresh "Hp" in
    let Ht := fresh "Ht" in
    let Hd := fresh "Hd" in
    intros ? ? Hp Ht Hd; simpl in Hp, Ht;
    first [ lia | discriminate Hp | discriminate Ht
          | inversion Hp; subst; intuition congruence ] |];
  split;
  [ persisted_values
  | let Hrej := fresh "Hrej" in
    intros Hrej Hn; simpl in Hrej;
    first [ exfalso; lia | discriminate Hrej | split; reflexivity ] ].

(** C7. The calls of every run of [IoTHub.provision] are an initial part of
    one fixed sequence: the quick pick that offers 'select' and 'create', the
    lookup of the toolkit, the toolkit's [selectIoTHub] or [createIoTHub]
    according to the choice, and the three updates of the configuration.
    Every call but the last was answered by a value before the next one was
    made, and an update is only made once the connection string of the hub
    that the toolkit returned has been parsed.

    The run goes on as far as it can.  After an item is picked, the toolkit
    is looked up; when it is found and the item is 'select' or 'create', the
    toolkit is called; when the toolkit returns a hub whose connection string
    yields a key and which has an events endpoint, the values derived from
    this hub are handed to [ConfigHandler.update], in order; and when no call
    is rejected, all three are, and [provision] returns [true]. *)
Theorem provision_ordered {W : Type} (env : Env W) (w : W) (this : IoTHub.t) :
  let r := run env (IoTHub.provision this) w in
  map detail IoTHub.provisionIothubSelection = [Some "select"; Some "create"] /\
  exists n hubStep,
    0 < n /\
    steps (trace r) = take n (plan hubStep) /\
    (hubStep = SelectHub \/ hubStep = CreateHub) /\
    forallb id (removelast (omap resolved (trace r))) = true /\
    (2 < n ->
     exists selection,
       omap picked (trace r) = [Some selection] /\
       (hubStep = SelectHub <-> detail selection = Some "select") /\
       (hubStep = CreateHub <->
        detail selection = Some "create" /\ detail selection <> Some "select")) /\
    (3 < n ->
     exists iothub connectionString key,
       hubs (trace r) = [iothub] /\
       iotHubConnectionString iothub = Some connectionString /\
       IoTHub.sharedAccessKey connectionString = inr key) /\
    (forall selection,
        omap picked (trace r) = [Some selection] -> 1 < n) /\
    (forall selection toolkit,
        omap picked (trace r) = [Some selection] ->
        omap toolkit_found (trace r) = [Some toolkit] ->
        detail selection = Some "select" \/ detail selection = Some "create" ->
        2 < n) /\
    (forall iothub connectionString key ev,
        hubs (trace r) = [iothub] ->
        iotHubConnectionString iothub = Some connectionString ->
        IoTHub.sharedAccessKey connectionString = inr key ->
        events iothub = Some ev ->
        3 < n /\
        map fst (updates (trace r))
        = take (n - 3)
            [ (ConfigKey.iotHubConnectionString, connectionString);
              (ConfigKey.eventHubConnectionString,
               "Endpoint=" +:+ endpoint ev +:+
               ";SharedAccessKeyName=iothubowner;SharedAccessKey=" +:+ key);
              (ConfigKey.eventHubConnectionPath, path ev) ]) /\
    (rejections (trace r) = [] -> 3 < n -> n = 6 /\ outcome r = Returned true).
Proof.
  intros r. subst r. split; [reflexivity|].
  unfold IoTHub.provision, IoTHub.report, IoTHub.report_JSON.
  executed; choices; hub_facts; hub_stops.
  all: first [ planned 1 SelectHub | planned 2 SelectHub | planned 3 SelectHub
             | planned 4 SelectHub | planned 5 SelectHub | planned 6 SelectHub
             | planned 3 CreateHub | planned 4 CreateHub | planned 5 CreateHub
             | planned 6 CreateHub ].
Qed.

(** ** The theorems at concrete runs *)

Lemma provision_ordered_witness :
  exists n hubStep,
    steps (trace runHub) = take n (plan hubStep) /\
    n = 6 /\ outcome runHub = Returned true.
Proof.
  destruct (provision_ordered scripted world0 hubComponent)
    as (_ & n & hubStep & _ & Hsteps & _ & _ & _ & _ & _ & _ & Hhub & Hall).
  exists n, hubStep. split; [exact Hsteps|].
  apply Hall; [reflexivity|].
  apply (Hhub hub0
           "HostName=h.azure-devices.net;SharedAccessKeyName=iothubowner;SharedAccessKey=c2VjcmV0"
           "c2VjcmV0"
           {| endpoint := "sb://ns.servicebus.windows.net/"; path := "h" |});
    reflexivity.
Defined.

Lemma provision_declined_witness :
  (outcome (run scripted (IoTHub.provision hubComponent) worldDismissed)
   = Returned false /\
   trace (run scripted (IoTHub.provision hubComponent) worldDismissed)
   = [ Called (showQuickPick (inr IoTHub.provisionIothubSelection)
                 IoTHub.provisionOptions) (inr None) ]) /\
  (outcome (run scripted (AzureFunctions.provision functions0) worldNoSubscription)
   = Returned false /\
   trace (run scripted (AzureFunctions.provision functions0) worldNoSubscription)
   = [ Called (showQuickPick (AzureFunctions.getSubscriptionList functions0)
                 AzureFunctions.subscriptionOptions)
         (inr (Some AzureFunctions.noSubscription)) ]).
Proof.
  split.
  - apply (proj1 (provision_declined scripted worldDismissed) hubComponent).
    reflexivity.
  - apply (proj2 (provision_declined scripted worldNoSubscription) functions0
             (Some AzureFunctions.noSubscription)).
    + reflexivity.
    + right. exists AzureFunctions.noSubscription.
      split; [reflexivity|]. right. reflexivity.
Defined.

Lemma errors_rethrown_witness :
  outcome (run scripted (AzureFunctions.deploy functions0) worldFlaky)
  = Thrown (Rejected (Failure "rejected")) /\
  forallb is_output
    [Emitted clearInterval; Emitted (channel_appendLine (Channel 0) ".")] = true.
Proof.
  apply (errors_rethrown scripted worldFlaky functions0
           (AzureFunctions.deploy functions0)).
  - right. right. left. reflexivity.
  - reflexivity.
Defined.

Lemma functionAppId_persisted_first_witness :
  exists pick subscriptionId answer rest,
    trace runUnprovisioned =
      Called (showQuickPick (AzureFunctions.getSubscriptionList functions0)
                AzureFunctions.subscriptionOptions) (inr pick)
      :: Called (executeCommand "azureFunctions.createFunctionApp"
                   [AString subscriptionId]) (inr (Some sampleApp))
      :: Called (ConfigHandler_update ConfigKey.functionAppId sampleApp) answer
      :: rest /\
    omap update_of rest = [] /\
    (forall message,
        outcome runUnprovisioned = Thrown (JsError message) ->
        answer = inr tt /\ In message (validationMessages subscriptionId)).
Proof.
  apply (functionAppId_persisted_first scripted worldUnprovisioned functions0).
  - left. reflexivity.
  - discriminate.
Defined.

(** In that run [provision] throws, and the store holds the function app id. *)
Example unprovisioned_run :
  outcome runUnprovisioned
  = Thrown (JsError "No event hub path or connection string found.") /\
  config (world runUnprovisioned) ConfigKey.functionAppId = Some sampleApp /\
  config worldUnprovisioned ConfigKey.functionAppId = None.
Proof. repeat split. Qed.

Lemma settings_injected_witness :
  exists item subscriptionId functionAppId connection path iot credential
         client resourceGroup siteName read written,
    trace runProvisioned =
      [ Called (showQuickPick (AzureFunctions.getSubscriptionList functions0)
                  AzureFunctions.subscriptionOptions) (inr (Some item));
        Called (executeCommand "azureFunctions.createFunctionApp"
                  [AString subscriptionId]) (inr (Some functionAppId));
        Called (ConfigHandler_update ConfigKey.functionAppId functionAppId) (inr tt);
        Called (ConfigHandler_get ConfigKey.eventHubConnectionString) (inr connection);
        Called (ConfigHandler_get ConfigKey.eventHubConnectionPath) (inr path);
        Called (ConfigHandler_get ConfigKey.iotHubConnectionString) (inr iot);
        Called (new_WebSiteManagementClient credential subscriptionId) (inr client);
        Emitted (console_log [LString resourceGroup; LString siteName]);
        Called (listApplicationSettings client resourceGroup siteName) (inr read);
        Emitted (console_log [LSettings read]);
        Called (updateApplicationSettings client resourceGroup siteName written)
          (inr tt) ] /\
    resource written = resource read /\
    (exists settings, properties written = Some settings /\
       settings !! "eventHubConnectionString" = Some (default "" connection) /\
       settings !! "eventHubConnectionPath" = Some (default "" path) /\
       settings !! "iotHubConnectionString" = Some (default "" iot) /\
       forall k : string,
         k <> "eventHubConnectionString" ->
         k <> "eventHubConnectionPath" ->
         k <> "iotHubConnectionString" ->
         settings !! k = default ∅ (properties read) !! k).
Proof.
  apply (settings_injected scripted worldProvisioned functions0).
  reflexivity.
Defined.

(** The settings of the sample function app after that run. *)
Example provisioned_settings :
  properties (settings (world runProvisioned)) =
    Some {[ "FUNCTIONS_EXTENSION_VERSION" := "~1";
            "eventHubConnectionString" :=
              "Endpoint=sb://ns.servicebus.windows.net/;SharedAccessKeyName=iothubowner;SharedAccessKey=c2VjcmV0";
            "eventHubConnectionPath" := "h";
            "iotHubConnectionString" :=
              "HostName=h.azure-devices.net;SharedAccessKeyName=iothubowner;SharedAccessKey=c2VjcmV0" ]}.
Proof. vm_compute. reflexivity. Qed.

Lemma provision_persists_witness :
  exists iothub connectionString key ev,
    hubs (trace runHub) = [iothub] /\
    iotHubConnectionString iothub = Some connectionString /\
    IoTHub.sharedAccessKey connectionString = inr key /\
    events iothub = Some ev /\
    updates (trace runHub) =
      [ (ConfigKey.iotHubConnectionString, connectionString, inr tt);
        (ConfigKey.eventHubConnectionString,
         "Endpoint=" +:+ endpoint ev +:+
         ";SharedAccessKeyName=iothubowner;SharedAccessKey=" +:+ key,
         inr tt);
        (ConfigKey.eventHubConnectionPath, path ev, inr tt) ].
Proof.
  apply (provision_persists scripted world0 hubComponent). reflexivity.
Defined.

Lemma eventHub_derived_witness :
  (exists n, 0 < n /\ map fst (updates (trace runHub)) = take n derivedHub) /\
  (rejections (trace runHub) = [] ->
   outcome runHub = Returned true /\
   map fst (updates (trace runHub)) = derivedHub).
Proof.
  apply (eventHub_derived scripted world0 hubComponent hub0
           "HostName=h.azure-devices.net;SharedAccessKeyName=iothubowner;SharedAccessKey=c2VjcmV0"
           "c2VjcmV0"
           {| endpoint := "sb://ns.servicebus.windows.net/"; path := "h" |}).
  - left. reflexivity.
  - reflexivity.
  - discriminate.
  - reflexivity.
  - reflexivity.
Defined.

Lemma keyFirst_segment :
  Regex.segment_at "SharedAccessKey=" ";" "" "c2VjcmV0" keyFirst /\
  Regex.leftmost "SharedAccessKey=" "" keyFirst.
Proof.
  split.
  - exists ";HostName=h.azure-devices.net". split; [reflexivity|].
    split; [|reflexivity]. simpl. repeat split; discriminate.
  - intros pre' _. simpl. lia.
Defined.

Lemma sharedAccessKey_extracted_witness :
  IoTHub.sharedAccessKey keyFirst = inr "c2VjcmV0" /\
  forall value answer,
    In (ConfigKey.eventHubConnectionString, value, answer)
       (updates (trace runKeyFirst)) ->
    exists ev,
      events hubKeyFirst = Some ev /\
      value = "Endpoint=" +:+ endpoint ev +:+
              ";SharedAccessKeyName=iothubowner;SharedAccessKey=" +:+ "c2VjcmV0".
Proof.
  apply (proj1 (sharedAccessKey_extracted scripted worldKeyFirst hubComponent
                  hubKeyFirst keyFirst (or_introl eq_refl) eq_refl)
           "" "c2VjcmV0");
    apply keyFirst_segment.
Defined.

(** ** The regular expressions on strings made of segments *)

Module SegmentFacts.
Import Regex Segments.

Lemma app_nil_r (s : string) : s +:+ "" = s.
Proof.
  induction s as [|a s IH]; [reflexivity|].
  rewrite JSFacts.app_cons, IH. reflexivity.
Qed.

Lemma app_assoc (s t u : string) : (s +:+ t) +:+ u = s +:+ (t +:+ u).
Proof.
  induction s as [|a s IH]; [reflexivity|].
  rewrite !JSFacts.app_cons, IH. reflexivity.
Qed.

(** A position where the literal does not start is passed over. *)
Lemma exec_cons_None (lit : string) (stop a : ascii) (s : string) :
  strip lit (String a s) = None ->
  exec lit stop (String a s) = exec lit stop s.
Proof. intros H. simpl. rewrite H. reflexivity. Qed.

Lemma exec_here (lit : string) (stop : ascii) (val post : string) :
  free_of stop val -> ends_at stop post ->
  exec lit stop (lit +:+ val +:+ post) = Some [lit +:+ val; val].
Proof.
  intros Hval Hpost.
  apply (RegexFacts.exec_leftmost lit stop "" val).
  - exists post. auto.
  - intros pre' _. simpl. lia.
Qed.

(** A prefix without the first character of the literal is passed over. *)
Lemma exec_skip_free (c : ascii) (lit : string) (stop : ascii) (p rest : string) :
  free_of c p ->
  exec (String c lit) stop (p +:+ rest) = exec (String c lit) stop rest.
Proof.
  induction p as [|a p IH]; [reflexivity|].
  intros [Ha Hp]. rewrite JSFacts.app_cons, exec_cons_None; [auto|].
  simpl. destruct (Ascii.eqb_spec c a); [congruence | reflexivity].
Qed.

(** The literal, which has no [c], cannot start before a [c] and end after
    it. *)
Lemma strip_within (c : ascii) (lit h rest r : string) :
  free_of c lit ->
  strip lit (h +:+ String c rest) = Some r ->
  exists r', strip lit h = Some r'.
Proof.
  revert h. induction lit as [|a lit IH]; intros h Hfree; simpl.
  - eauto.
  - destruct Hfree as [Ha Hlit]. destruct h as [|b h].
    + rewrite JSFacts.app_nil_l.
      destruct (Ascii.eqb_spec a c); [contradiction | discriminate].
    + rewrite JSFacts.app_cons. destruct (Ascii.eqb a b); [|discriminate].
      apply IH, Hlit.
Qed.

Lemma occurs_cons (lit : string) (a : ascii) (h : string) :
  occurs lit h -> occurs lit (String a h).
Proof.
  intros (pre & post & ->). exists (String a pre), post.
  rewrite JSFacts.app_cons. reflexivity.
Qed.

(** A part where the literal does not occur, closed by [c], is passed over. *)
Lemma exec_skip_absent (c : ascii) (lit : string) (stop : ascii) (h rest : string) :
  free_of c lit ->
  ~ occurs lit h ->
  exec lit stop (h +:+ String c rest) = exec lit stop (String c rest).
Proof.
  intros Hfree. induction h as [|a h IH]; intros Hno; [reflexivity|].
  rewrite JSFacts.app_cons, exec_cons_None.
  - apply IH. intros Ho. apply Hno, occurs_cons, Ho.
  - destruct (strip lit (String a (h +:+ String c rest))) as [r|] eqn:E;
      [|reflexivity].
    rewrite <- JSFacts.app_cons in E.
    destruct (strip_within _ _ _ _ _ Hfree E) as [r' E'].
    apply RegexFacts.strip_Some in E'. exfalso. apply Hno.
    exists "", r'. exact E'.
Qed.

(** The literal occurs exactly when the expression matches. *)
Lemma exec_None_absent (lit : string) (stop : ascii) (s : string) :
  exec lit stop s = None -> ~ occurs lit s.
Proof.
  induction s as [|a s IH]; simpl.
  - destruct (strip lit "") as [r|] eqn:E; [discriminate|].
    intros _ ([|b pre] & post & H); [|discriminate].
    rewrite JSFacts.app_nil_l in H. apply RegexFacts.strip_Some in H. congruence.
  - destruct (strip lit (String a s)) as [r|] eqn:E; [discriminate|].
    intros H ([|b pre] & post & H').
    + rewrite JSFacts.app_nil_l in H'. apply RegexFacts.strip_Some in H'. congruence.
    + rewrite JSFacts.app_cons in H'. injection H' as _ H'.
      apply (IH H). exists pre, post. exact H'.
Qed.

End SegmentFacts.

Module SegmentLookup.
Import Regex Segments SegmentFacts.

Lemma exec_here_end (lit : string) (stop : ascii) (val : string) :
  free_of stop val -> exec lit stop (lit +:+ val) = Some [lit +:+ val; val].
Proof.
  intros H. rewrite <- (app_nil_r val) at 1.
  apply exec_here; [exact H | exact I].
Qed.

(** Earlier segments where the literal does not occur are passed over. *)
Lemma exec_closed (c a : ascii) (lit : string) (earlier : list string)
  (val post : string) :
  a <> c -> free_of c lit ->
  Forall (fun seg => ~ occurs (String a lit) seg) earlier ->
  free_of c val -> ends_at c post ->
  exec (String a lit) c (closed c earlier +:+ String a lit +:+ val +:+ post)
  = Some [String a lit +:+ val; val].
Proof.
  intros Ha Hlit Hearlier Hval Hpost.
  induction Hearlier as [|seg earlier Hseg _ IH]; cbn [closed].
  - rewrite JSFacts.app_nil_l. apply exec_here; assumption.
  - rewrite app_assoc, ?JSFacts.app_cons.
    rewrite (exec_skip_absent c) by (simpl; auto).
    rewrite exec_cons_None; [exact IH|].
    simpl. destruct (Ascii.eqb_spec a c); [contradiction | reflexivity].
Qed.

(** Two texts without [c] that are followed by [c] in one string are equal. *)
Lemma strip_segment (c : ascii) (name s rest : string) :
  free_of c name -> free_of c s ->
  strip (name +:+ String c "") (s +:+ String c rest)
  = if String.eqb s name then Some rest else None.
Proof.
  revert s. induction name as [|a name IH]; intros [|b s] Hname Hs;
    rewrite ?JSFacts.app_cons, ?JSFacts.app_nil_l; simpl.
  - rewrite Ascii.eqb_refl. reflexivity.
  - destruct Hs as [Hb _].
    destruct (Ascii.eqb_spec c b); [congruence | reflexivity].
  - destruct Hname as [Ha _].
    destruct (Ascii.eqb_spec a c); [contradiction | reflexivity].
  - destruct Hname as [_ Hname]. destruct Hs as [_ Hs].
    destruct (Ascii.eqb_spec a b) as [<-|Hab].
    + rewrite IH by assumption. rewrite Ascii.eqb_refl. reflexivity.
    + destruct (Ascii.eqb_spec b a); [congruence | reflexivity].
Qed.

Lemma strip_last_segment (c : ascii) (name s : string) :
  free_of c s -> strip (name +:+ String c "") s = None.
Proof.
  revert s. induction name as [|a name IH]; intros [|b s] Hs;
    rewrite ?JSFacts.app_cons, ?JSFacts.app_nil_l; simpl; try reflexivity.
  - destruct Hs as [Hb _].
    destruct (Ascii.eqb_spec c b); [congruence | reflexivity].
  - destruct Hs as [_ Hs]. destruct (Ascii.eqb a b); [apply IH, Hs | reflexivity].
Qed.

Lemma led_ends (c : ascii) (segs : list string) : ends_at c (led c segs).
Proof. destruct segs; simpl; auto. Qed.

(** On a string of segments led by [c], the expression made of [c], a name
    and [c], with a group that stops at [c], looks up the segment that follows
    the first segment equal to the name. *)
Lemma exec_led (c : ascii) (name : string) (segs : list string) :
  free_of c name ->
  Forall (free_of c) segs ->
  exec (String c (name +:+ String c "")) c (led c segs)
  = match next_after name segs with
    | Some v => Some [String c (name +:+ String c "") +:+ v; v]
    | None => None
    end.
Proof.
  intros Hname Hsegs.
  induction Hsegs as [|s rest Hs Hrest IH]; [reflexivity|].
  destruct rest as [|v rest'].
  - simpl. rewrite Ascii.eqb_refl, app_nil_r, (strip_last_segment c name s Hs).
    rewrite <- (app_nil_r s), exec_skip_free by exact Hs. reflexivity.
  - change (led c (s :: v :: rest')) with (String c (s +:+ led c (v :: rest'))).
    change (next_after name (s :: v :: rest'))
      with (if String.eqb s name then Some v else next_after name (v :: rest')).
    change (led c (v :: rest')) with (String c (v +:+ led c rest')) in *.
    simpl exec. rewrite Ascii.eqb_refl, strip_segment by assumption.
    destruct (String.eqb s name).
    + rewrite RegexFacts.group_segment; [reflexivity | | apply led_ends].
      inversion Hrest; assumption.
    + rewrite exec_skip_free by exact Hs. exact IH.
Qed.

(** Every string is its pieces: the first one, then the others led by [c]. *)
Lemma pieces_led (c : ascii) (s : string) :
  exists p ps,
    pieces c s = p :: ps /\ s = p +:+ led c ps /\
    free_of c p /\ Forall (free_of c) ps.
Proof.
  induction s as [|a s (p & ps & Hp & Hs & Hfp & Hfps)]; simpl.
  - exists "", []. repeat split. constructor.
  - destruct (Ascii.eqb_spec a c) as [->|Hac].
    + exists "", (p :: ps). rewrite Hp. repeat split.
      * simpl. rewrite JSFacts.app_nil_l, <- Hs. reflexivity.
      * constructor; assumption.
    + rewrite Hp. exists (String a p), ps. repeat split; auto.
      rewrite JSFacts.app_cons, <- Hs. reflexivity.
Qed.

End SegmentLookup.

(** ** More on the shared access key *)

(** Equations between concatenations of the same texts. *)
Ltac same_text :=
  repeat first [ rewrite SegmentFacts.app_assoc
               | rewrite JSFacts.app_cons
               | rewrite JSFacts.app_nil_l
               | rewrite SegmentFacts.app_nil_r ];
  reflexivity.

Lemma sharedAccessKey_inl (connectionString : string) (e : Error) :
  IoTHub.sharedAccessKey connectionString = inl e ->
  e = IoTHub.parseError /\ ~ Regex.occurs "SharedAccessKey=" connectionString.
Proof.
  unfold IoTHub.sharedAccessKey, IoTHub.sharedAccessKeyMatches.
  destruct (Regex.exec _ _ _) as [m|] eqn:E.
  - destruct (RegexFacts.exec_Some_leftmost _ _ _ _ E) as (? & ? & -> & _).
    discriminate.
  - intros [= <-]. split; [reflexivity|].
    apply (SegmentFacts.exec_None_absent _ _ _ E).
Qed.

(** X1. The extraction is decided by the leftmost occurrence of
    'SharedAccessKey=': it yields [key] exactly when [key] is the maximal run
    without a semicolon after that occurrence, and it fails, with the parse
    error and no other, exactly when the text does not occur. *)
Theorem sharedAccessKey_complete (connectionString : string) :
  (forall key,
      IoTHub.sharedAccessKey connectionString = inr key <->
      exists pre,
        Regex.segment_at "SharedAccessKey=" ";" pre key connectionString /\
        Regex.leftmost "SharedAccessKey=" pre connectionString) /\
  (forall e,
      IoTHub.sharedAccessKey connectionString = inl e <->
      e = IoTHub.parseError /\ ~ Regex.occurs "SharedAccessKey=" connectionString).
Proof.
  split.
  - intros key. split.
    + apply sharedAccessKey_inr.
    + intros (pre & Hseg & Hleft). apply (sharedAccessKey_leftmost _ pre); assumption.
  - intros e. split.
    + apply sharedAccessKey_inl.
    + intros [-> Hno]. apply sharedAccessKey_absent, Hno.
Qed.

Lemma sharedAccessKey_complete_witness :
  IoTHub.sharedAccessKey keyFirst = inr "c2VjcmV0" /\
  IoTHub.sharedAccessKey "HostName=h" = inl IoTHub.parseError.
Proof.
  split.
  - apply (proj1 (sharedAccessKey_complete keyFirst)).
    exists "". apply keyFirst_segment.
  - apply (proj2 (sharedAccessKey_complete "HostName=h")).
    split; [reflexivity|].
    apply (SegmentFacts.exec_None_absent "SharedAccessKey=" ";"). reflexivity.
Defined.

Lemma key_of_first_segment (earlier : list string) (key post : string) :
  Forall (fun seg => ~ Regex.occurs "SharedAccessKey=" seg) earlier ->
  Regex.free_of ";" key ->
  Regex.ends_at ";" post ->
  IoTHub.sharedAccessKey
    (Segments.closed ";" earlier +:+ "SharedAccessKey=" +:+ key +:+ post)
  = inr key.
Proof.
  intros Hearlier Hkey Hpost.
  unfold IoTHub.sharedAccessKey, IoTHub.sharedAccessKeyMatches.
  rewrite (SegmentLookup.exec_closed ";" "S" "haredAccessKey=");
    [reflexivity | discriminate | | assumption..].
  simpl. repeat split; discriminate.
Qed.

(** X2. In a connection string made of segments closed by semicolons, when
    'SharedAccessKey=' occurs in none of the earlier segments, the key
    extracted is the value of the first segment that starts with it. *)
Theorem sharedAccessKey_first_segment
  (earlier : list string) (key post : string) :
  Forall (fun seg => ~ Regex.occurs "SharedAccessKey=" seg) earlier ->
  Regex.free_of ";" key ->
  Regex.ends_at ";" post ->
  IoTHub.sharedAccessKey
    (Segments.closed ";" earlier +:+ "SharedAccessKey=" +:+ key +:+ post)
  = inr key.
Proof.
  intros Hearlier Hkey Hpost.
  apply key_of_first_segment; assumption.
Qed.

Lemma sharedAccessKey_first_segment_witness :
  IoTHub.sharedAccessKey
    (Segments.closed ";" ["HostName=h"; "DeviceId=d"]
     +:+ "SharedAccessKey=" +:+ "a" +:+ ";SharedAccessKey=b")
  = inr "a".
Proof.
  apply (sharedAccessKey_first_segment ["HostName=h"; "DeviceId=d"] "a"
           ";SharedAccessKey=b").
  - repeat constructor;
      apply (SegmentFacts.exec_None_absent "SharedAccessKey=" ";"); reflexivity.
  - simpl. split; [discriminate | exact I].
  - reflexivity.
Defined.

(** The text does not occur in a segment that is 'HostName=' or
    'SharedAccessKeyName=' followed by a value without it. *)
Lemma absent_after_prefix (p value : string) :
  Regex.exec "SharedAccessKey=" ";" (p +:+ value)
  = Regex.exec "SharedAccessKey=" ";" value ->
  ~ Regex.occurs "SharedAccessKey=" value ->
  ~ Regex.occurs "SharedAccessKey=" (p +:+ value).
Proof.
  intros Hskip Hno. apply (SegmentFacts.exec_None_absent _ ";").
  rewrite Hskip. apply RegexFacts.exec_None, Hno.
Qed.

Lemma absent_keyName (value : string) :
  ~ Regex.occurs "SharedAccessKey=" value ->
  ~ Regex.occurs "SharedAccessKey=" ("SharedAccessKeyName=" +:+ value).
Proof.
  apply absent_after_prefix.
  rewrite JSFacts.app_cons, SegmentFacts.exec_cons_None by reflexivity.
  apply (SegmentFacts.exec_skip_free "S" "haredAccessKey=").
  simpl. repeat split; discriminate.
Qed.

Lemma absent_plain (p value : string) :
  Regex.free_of "S" p ->
  ~ Regex.occurs "SharedAccessKey=" value ->
  ~ Regex.occurs "SharedAccessKey=" (p +:+ value).
Proof.
  intros Hp. apply absent_after_prefix.
  apply (SegmentFacts.exec_skip_free "S" "haredAccessKey="), Hp.
Qed.

(** X3. From a connection string of the usual form,
    'HostName=..;SharedAccessKeyName=..;SharedAccessKey=<key>', whose host and
    key name do not contain 'SharedAccessKey=', the key extracted is <key>, up
    to its first semicolon: the segment 'SharedAccessKeyName=' is not taken
    for the key. *)
Theorem sharedAccessKey_usual_form (host keyName key post : string) :
  ~ Regex.occurs "SharedAccessKey=" host ->
  ~ Regex.occurs "SharedAccessKey=" keyName ->
  Regex.free_of ";" key ->
  Regex.ends_at ";" post ->
  IoTHub.sharedAccessKey (hubConnectionString host keyName key +:+ post)
  = inr key.
Proof.
  intros Hhost Hname Hkey Hpost.
  rewrite <- (key_of_first_segment
                ["HostName=" +:+ host; "SharedAccessKeyName=" +:+ keyName]
                key post); try assumption.
  - f_equal. unfold hubConnectionString. cbn [Segments.closed]. same_text.
  - repeat constructor.
    + apply absent_plain; [|exact Hhost]. simpl. repeat split; discriminate.
    + apply absent_keyName, Hname.
Qed.

Lemma sharedAccessKey_usual_form_witness :
  IoTHub.sharedAccessKey
    (hubConnectionString "h.azure-devices.net" "iothubowner" "c2VjcmV0" +:+ "")
  = inr "c2VjcmV0".
Proof.
  apply (sharedAccessKey_usual_form "h.azure-devices.net" "iothubowner"
           "c2VjcmV0" "").
  - apply (SegmentFacts.exec_None_absent "SharedAccessKey=" ";"). reflexivity.
  - apply (SegmentFacts.exec_None_absent "SharedAccessKey=" ";"). reflexivity.
  - simpl. repeat split; discriminate.
  - exact I.
Defined.

(** The derived event hub connection string yields the key it was built
    with. *)
Lemma eventHubConnectionString_key (ev : EventHubEndpoint) (key : string) :
  ~ Regex.occurs "SharedAccessKey=" (endpoint ev) ->
  Regex.free_of ";" key ->
  IoTHub.sharedAccessKey (IoTHub.eventHubConnectionStringOf ev key) = inr key.
Proof.
  intros Hev Hkey.
  rewrite <- (key_of_first_segment
                ["Endpoint=" +:+ endpoint ev; "SharedAccessKeyName=iothubowner"]
                key ""); try assumption; try exact I.
  - f_equal. unfold IoTHub.eventHubConnectionStringOf. cbn [Segments.closed].
    same_text.
  - repeat constructor.
    + apply absent_plain; [|exact Hev]. simpl. repeat split; discriminate.
    + apply (SegmentFacts.exec_None_absent "SharedAccessKey=" ";"). reflexivity.
Qed.

(** X4. On a run of [IoTHub.provision] that returns [true], the two
    connection strings that were persisted carry the same shared access key.
    For the hub that the toolkit returned and its events endpoint, when that
    endpoint does not itself contain 'SharedAccessKey=': the key extracted
    from the hub's connection string has no semicolon, and the event hub
    connection string that was persisted, parsed by the same expression,
    yields that key again. *)
Theorem persisted_keys_agree {W : Type} (env : Env W) (w : W) (this : IoTHub.t)
  (iothub : IoTHubInfo) (ev : EventHubEndpoint) :
  let r := run env (IoTHub.provision this) w in
  In iothub (hubs (trace r)) ->
  events iothub = Some ev ->
  ~ Regex.occurs "SharedAccessKey=" (endpoint ev) ->
  outcome r = Returned true ->
  exists connectionString derived key,
    iotHubConnectionString iothub = Some connectionString /\
    updates (trace r) =
      [ (ConfigKey.iotHubConnectionString, connectionString, inr tt);
        (ConfigKey.eventHubConnectionString, derived, inr tt);
        (ConfigKey.eventHubConnectionPath, path ev, inr tt) ] /\
    derived = "Endpoint=" +:+ endpoint ev +:+
              ";SharedAccessKeyName=iothubowner;SharedAccessKey=" +:+ key /\
    IoTHub.sharedAccessKey connectionString = inr key /\
    Regex.free_of ";" key /\
    IoTHub.sharedAccessKey derived = inr key.
Proof.
  intros r. subst r. unfold IoTHub.provision, IoTHub.report, IoTHub.report_JSON.
  executed.
  all: intros Hin Hev Hno Hout; try discriminate Hout; simpl in Hin.
  all: destruct Hin as [<- | []]; hub_facts.
  all: match goal with
       | H1 : events ?h = Some _, H2 : events ?h = Some _ |- _ =>
           rewrite H1 in H2; injection H2 as ?; subst
       end.
  all: match goal with
       | H : IoTHub.sharedAccessKey _ = inr ?k |- _ =>
           destruct (sharedAccessKey_inr _ _ H) as (pre & (post & _ & Hfree & _) & _);
           do 3 eexists;
           split; [reflexivity|];
           split; [reflexivity|];
           split; [reflexivity|];
           split; [exact H|];
           split; [exact Hfree|];
           apply eventHubConnectionString_key; assumption
       end.
Qed.

Lemma persisted_keys_agree_witness :
  exists connectionString derived key,
    iotHubConnectionString hub0 = Some connectionString /\
    updates (trace runHub) =
      [ (ConfigKey.iotHubConnectionString, connectionString, inr tt);
        (ConfigKey.eventHubConnectionString, derived, inr tt);
        (ConfigKey.eventHubConnectionPath, "h", inr tt) ] /\
    derived = "Endpoint=" +:+ "sb://ns.servicebus.windows.net/" +:+
              ";SharedAccessKeyName=iothubowner;SharedAccessKey=" +:+ key /\
    IoTHub.sharedAccessKey connectionString = inr key /\
    Regex.free_of ";" key /\
    IoTHub.sharedAccessKey derived = inr key.
Proof.
  apply (persisted_keys_agree scripted world0 hubComponent hub0
           {| endpoint := "sb://ns.servicebus.windows.net/"; path := "h" |}).
  - left. reflexivity.
  - reflexivity.
  - apply (SegmentFacts.exec_None_absent "SharedAccessKey=" ";"). reflexivity.
  - reflexivity.
Defined.

(** ** The function app id *)

Lemma capture_lookup (name message id : string) :
  Regex.free_of "/" name ->
  AzureFunctions.capture (String "/" (name +:+ "/")) message id
  = match Segments.next_after name (tail (Segments.pieces "/" id)) with
    | Some v => inr v
    | None => inl (JsError message)
    end.
Proof.
  intros Hname.
  destruct (SegmentLookup.pieces_led "/" id) as (p & ps & -> & -> & Hp & Hps).
  unfold AzureFunctions.capture.
  rewrite (SegmentFacts.exec_skip_free "/") by exact Hp.
  rewrite (SegmentLookup.exec_led "/" name ps Hname Hps). simpl.
  destruct (Segments.next_after name ps); reflexivity.
Qed.

(** X5. For every function app id, the resource group that
    [AzureFunctions.provision] parses is the piece that follows the first
    piece 'resourceGroups' of the id split at its slashes (the piece before
    the first slash apart), and the site name is the piece that follows the
    first piece 'sites'; the parse fails exactly when there is no such piece
    with a follower. *)
Theorem functionAppId_lookup (id : string) :
  AzureFunctions.capture "/resourceGroups/"
    "Cannot parse resource group from function app ID." id
  = match Segments.next_after "resourceGroups" (tail (Segments.pieces "/" id)) with
    | Some v => inr v
    | None => inl (JsError "Cannot parse resource group from function app ID.")
    end /\
  AzureFunctions.capture "/sites/"
    "Cannot parse function app name from function app ID." id
  = match Segments.next_after "sites" (tail (Segments.pieces "/" id)) with
    | Some v => inr v
    | None => inl (JsError "Cannot parse function app name from function app ID.")
    end.
Proof.
  split.
  - apply (capture_lookup "resourceGroups"). simpl. repeat split; discriminate.
  - apply (capture_lookup "sites"). simpl. repeat split; discriminate.
Qed.

Lemma armId_led (subscription resourceGroup site : string) :
  armId subscription resourceGroup site
  = Segments.led "/" [ "subscriptions"; subscription; "resourceGroups";
                       resourceGroup; "providers"; "Microsoft.Web"; "sites";
                       site ].
Proof. unfold armId. cbn [Segments.led]. same_text. Qed.

Lemma capture_led (name message : string) (segs : list string) :
  Regex.free_of "/" name ->
  Forall (Regex.free_of "/") segs ->
  AzureFunctions.capture (String "/" (name +:+ "/")) message (Segments.led "/" segs)
  = match Segments.next_after name segs with
    | Some v => inr v
    | None => inl (JsError message)
    end.
Proof.
  intros Hname Hsegs. unfold AzureFunctions.capture.
  rewrite (SegmentLookup.exec_led "/" name segs Hname Hsegs).
  destruct (Segments.next_after name segs); reflexivity.
Qed.

Ltac slash_free :=
  repeat constructor; try assumption; simpl; repeat split; discriminate.

Lemma armId_captures (subscription resourceGroup site : string) :
  Regex.free_of "/" subscription ->
  Regex.free_of "/" resourceGroup ->
  Regex.free_of "/" site ->
  subscription <> "resourceGroups" ->
  subscription <> "sites" ->
  resourceGroup <> "sites" ->
  AzureFunctions.capture "/resourceGroups/"
    "Cannot parse resource group from function app ID."
    (armId subscription resourceGroup site) = inr resourceGroup /\
  AzureFunctions.capture "/sites/"
    "Cannot parse function app name from function app ID."
    (armId subscription resourceGroup site) = inr site.
Proof.
  intros Hs Hr Ha Hn1 Hn2 Hn3. rewrite armId_led.
  apply String.eqb_neq in Hn1, Hn2, Hn3.
  split.
  - rewrite (capture_led "resourceGroups") by slash_free.
    simpl. rewrite Hn1. reflexivity.
  - rewrite (capture_led "sites") by slash_free.
    simpl. rewrite Hn2, Hn3. reflexivity.
Qed.

(** X6. From a function app id of the ARM form, with a subscription, a
    resource group and a site that have no slash, the parse yields that
    resource group and that site, unless the subscription is named
    'resourceGroups' or 'sites', or the resource group is named 'sites'. *)
Theorem armId_parsed (subscription resourceGroup site : string) :
  Regex.free_of "/" subscription ->
  Regex.free_of "/" resourceGroup ->
  Regex.free_of "/" site ->
  subscription <> "resourceGroups" ->
  subscription <> "sites" ->
  resourceGroup <> "sites" ->
  AzureFunctions.capture "/resourceGroups/"
    "Cannot parse resource group from function app ID."
    (armId subscription resourceGroup site) = inr resourceGroup /\
  AzureFunctions.capture "/sites/"
    "Cannot parse function app name from function app ID."
    (armId subscription resourceGroup site) = inr site.
Proof.
  intros Hs Hr Ha Hn1 Hn2 Hn3.
  destruct (armId_captures _ _ _ Hs Hr Ha Hn1 Hn2 Hn3) as [Hgroup Hsite].
  split; [exact Hgroup | exact Hsite].
Qed.

Lemma armId_parsed_witness :
  AzureFunctions.capture "/resourceGroups/"
    "Cannot parse resource group from function app ID."
    (armId "sub-1" "rg" "app") = inr "rg" /\
  AzureFunctions.capture "/sites/"
    "Cannot parse function app name from function app ID."
    (armId "sub-1" "rg" "app") = inr "app".
Proof.
  apply (armId_parsed "sub-1" "rg" "app");
    first [discriminate | simpl; repeat split; discriminate].
Defined.

(** X7. When the resource group of such an id is named 'sites', the site
    name that is parsed is 'providers', the piece after the resource group,
    and not the site of the id. *)
Theorem armId_group_named_sites (subscription site : string) :
  Regex.free_of "/" subscription ->
  Regex.free_of "/" site ->
  subscription <> "sites" ->
  AzureFunctions.capture "/sites/"
    "Cannot parse function app name from function app ID."
    (armId subscription "sites" site) = inr "providers".
Proof.
  intros Hs Ha Hn. rewrite armId_led. apply String.eqb_neq in Hn.
  rewrite (capture_led "sites") by slash_free.
  simpl. rewrite Hn. reflexivity.
Qed.

Lemma armId_group_named_sites_witness :
  AzureFunctions.capture "/sites/"
    "Cannot parse function app name from function app ID."
    (armId "sub-1" "sites" "app") = inr "providers".
Proof.
  apply (armId_group_named_sites "sub-1" "app");
    first [discriminate | simpl; repeat split; discriminate].
Defined.

(** ** Credentials *)

(** X8. With the account extension present and a subscription id that is not
    empty, [getCredentialFromSubscriptionId] returns the credentials of the
    first filter of that subscription; filters after it, of the same
    subscription or not, do not count.  It returns [undefined] exactly when no
    filter is of that subscription, and it never throws. *)
Theorem credential_of_first_filter
  (this : AzureFunctions.t) (account : AzureAccount) (id : string) :
  AzureFunctions.azureAccountExtension this = Some account ->
  id <> "" ->
  exists found,
    AzureFunctions.getCredentialFromSubscriptionId this id = inr found /\
    (forall c, found = Some c <->
       exists before f after,
         filters account = (before ++ f :: after)%list /\
         subscriptionId (subscription f) = id /\
         credentials (session f) = c /\
         Forall (fun g => subscriptionId (subscription g) <> id) before) /\
    (found = None <->
       Forall (fun g => subscriptionId (subscription g) <> id) (filters account)).
Proof.
  intros Hext Hid. unfold AzureFunctions.getCredentialFromSubscriptionId.
  rewrite Hext, (truthy_nonempty id Hid). simpl.
  eexists. split; [reflexivity|].
  generalize (filters account) as l. clear. intros l.
  induction l as [|g l [IHs IHn]]; simpl.
  - split.
    + intros c. split; [discriminate|].
      intros ([|? ?] & f & after & E & _); discriminate.
    + split; [constructor | reflexivity].
  - destruct (String.eqb_spec (subscriptionId (subscription g)) id) as [Eg|Ng].
    + split.
      * intros c. split.
        -- intros [= <-]. exists [], g, l. repeat split; auto.
        -- intros ([|g' before] & f & after & E & Hf & Hc & Hb).
           ++ injection E as <- _. congruence.
           ++ injection E as <- _. inversion Hb; contradiction.
      * split; [discriminate|]. intros H. inversion H; contradiction.
    + split.
      * intros c. rewrite IHs. split.
        -- intros (before & f & after & -> & Hf & Hc & Hb).
           exists (g :: before), f, after. repeat split; auto.
        -- intros ([|g' before] & f & after & E & Hf & Hc & Hb).
           ++ injection E as <- _. contradiction.
           ++ injection E as <- ->. inversion Hb; subst.
              exists before, f, after. repeat split; auto.
      * rewrite IHn. split.
        -- intros H. constructor; assumption.
        -- intros H. inversion H; assumption.
Qed.

Lemma credential_of_first_filter_witness :
  exists found,
    AzureFunctions.getCredentialFromSubscriptionId functions0 "sub-1" = inr found /\
    (forall c, found = Some c <->
       exists before f after,
         filters account0 = (before ++ f :: after)%list /\
         subscriptionId (subscription f) = "sub-1" /\
         credentials (session f) = c /\
         Forall (fun g => subscriptionId (subscription g) <> "sub-1") before) /\
    (found = None <->
       Forall (fun g => subscriptionId (subscription g) <> "sub-1") (filters account0)).
Proof.
  apply (credential_of_first_filter functions0 account0 "sub-1").
  - reflexivity.
  - discriminate.
Defined.

Lemma findCredentials_member (l : list AzureResourceFilter) (f : AzureResourceFilter) :
  In f l ->
  exists c, AzureFunctions.findCredentials l (subscriptionId (subscription f)) = Some c.
Proof.
  induction l as [|g l IH]; simpl; [contradiction|].
  intros [-> | Hin].
  - rewrite String.eqb_refl. eauto.
  - destruct (String.eqb _ _); eauto.
Qed.

(** A subscription of the list has credentials. *)
Lemma listed_has_credential
  (this : AzureFunctions.t) (items : list QuickPickItem) (item : QuickPickItem) :
  AzureFunctions.getSubscriptionList this = inr items ->
  In item items ->
  JS.truthy (description item) = true ->
  exists c,
    AzureFunctions.getCredentialFromSubscriptionId this
      (default "" (description item)) = inr (Some c).
Proof.
  unfold AzureFunctions.getSubscriptionList,
    AzureFunctions.getCredentialFromSubscriptionId.
  destruct (AzureFunctions.azureAccountExtension this) as [account|]; [|discriminate].
  change (AzureFunctions.forEach (filters account) _ [])
    with (AzureFunctions.forEach (filters account)
            (fun acc item => AzureFunctions.push acc (itemOf item)) []).
  rewrite SubscriptionList.forEach_push. simpl.
  intros [= <-] Hin Ht.
  destruct (JSFacts.truthy_Some _ Ht) as (id & Hd & Hid).
  rewrite Hd in *. simpl. rewrite Ht. simpl.
  destruct (filters account) as [|f l] eqn:Hf.
  - simpl in Hin. destruct Hin as [<- | []].
    simpl in Hd. injection Hd as <-. contradiction.
  - change (length (map itemOf (f :: l)) =? 0)%nat with false in Hin.
    cbv iota in Hin. apply in_map_iff in Hin. destruct Hin as (g & <- & Hg).
    simpl in Hd. injection Hd as <-.
    destruct (findCredentials_member _ _ Hg) as [c ->]. eauto.
Qed.

(** X9. On one list of filters, a subscription that is listed has
    credentials: when [getSubscriptionList] and
    [getCredentialFromSubscriptionId] see the same filters of the account,
    every item of the list with a description that is not empty names a
    subscription for which credentials are found. *)
Theorem listed_filter_has_credential
  (this : AzureFunctions.t) (items : list QuickPickItem) (item : QuickPickItem)
  (id : string) :
  AzureFunctions.getSubscriptionList this = inr items ->
  In item items ->
  description item = Some id ->
  id <> "" ->
  exists account f,
    AzureFunctions.azureAccountExtension this = Some account /\
    In f (filters account) /\
    subscriptionId (subscription f) = id /\
    exists c,
      AzureFunctions.getCredentialFromSubscriptionId this id = inr (Some c).
Proof.
  intros Hlist Hin Hd Hid.
  assert (JS.truthy (description item) = true) as Ht
      by (rewrite Hd; apply truthy_nonempty, Hid).
  destruct (listed_has_credential this items item Hlist Hin Ht) as [c Hc].
  rewrite Hd in Hc. simpl in Hc.
  revert Hlist Hc. unfold AzureFunctions.getSubscriptionList,
    AzureFunctions.getCredentialFromSubscriptionId.
  destruct (AzureFunctions.azureAccountExtension this) as [account|]; [|discriminate].
  change (AzureFunctions.forEach (filters account) _ [])
    with (AzureFunctions.forEach (filters account)
            (fun acc item => AzureFunctions.push acc (itemOf item)) []).
  rewrite SubscriptionList.forEach_push. simpl.
  intros [= <-] Hc.
  destruct (filters account) as [|f0 l] eqn:Hf.
  - simpl in Hin. destruct Hin as [<- | []]. simpl in Hd. congruence.
  - change (length (map itemOf (f0 :: l)) =? 0)%nat with false in Hin.
    cbv iota in Hin. apply in_map_iff in Hin. destruct Hin as (g & <- & Hg).
    simpl in Hd. injection Hd as <-.
    exists account, g. split; [reflexivity|]. rewrite ?Hf.
    split; [exact Hg|]. split; [reflexivity|].
    exists c. exact Hc.
Qed.

Lemma listed_filter_has_credential_witness :
  exists account f,
    AzureFunctions.azureAccountExtension functions0 = Some account /\
    In f (filters account) /\
    subscriptionId (subscription f) = "sub-1" /\
    exists c,
      AzureFunctions.getCredentialFromSubscriptionId functions0 "sub-1"
      = inr (Some c).
Proof.
  apply (listed_filter_has_credential functions0 [subscriptionItem]
           subscriptionItem "sub-1").
  - reflexivity.
  - left. reflexivity.
  - reflexivity.
  - discriminate.
Defined.

(** ** [AzureFunctions.create] and [AzureFunctions.deploy] *)

(** X10. [AzureFunctions.create] never returns [false] and never touches the
    configuration.  When the folder does not exist it throws the error that
    names the folder, and executes no command.  When it returns [true], the
    folder exists and the one command executed is
    [azureFunctions.createNewProject], for that folder, with the C# script
    template of the IoT Hub trigger bound to the event hub settings. *)
Theorem create_outcomes {W : Type} (env : Env W) (w : W) (this : AzureFunctions.t) :
  let r := run env (AzureFunctions.create this) w in
  let folder := AzureFunctions.azureFunctionsPath this in
  outcome r <> Returned false /\
  omap access_of (trace r) = [] /\
  (omap folder_found (trace r) = [false] ->
   outcome r = Thrown (JsError ("Azure Functions folder doesn't exist: " +:+ folder)) /\
   omap command_of (trace r) = []) /\
  (outcome r = Returned true ->
   omap folder_found (trace r) = [true] /\
   omap command_of (trace r) =
     [ ("azureFunctions.createNewProject",
        [ AString folder; AString "C#Script"; AString "~1"; ABool false;
          AString "IoTHubTrigger-CSharp"; AString "IoTHubTrigger1";
          AObject [ ("connection", "eventHubConnectionString");
                    ("path", "%eventHubConnectionPath%");
                    ("consumerGroup", "$Default") ] ]) ]).
Proof.
  intros r folder. subst r folder. executed.
  all: repeat match goal with b : bool |- _ => destruct b end;
    simpl in *; try discriminate.
  all: repeat split; try discriminate; auto.
Qed.

(** X11. The timer of the progress dots is balanced on every run of
    [AzureFunctions.deploy]: with an output channel it is set once, before
    anything else is called, and cleared once, whether the deployment
    succeeds, is rejected, or the configuration cannot be read; without a
    channel no timer is set or cleared. *)
Theorem deploy_timer_balanced {W : Type} (env : Env W) (w : W)
  (this : AzureFunctions.t) :
  let r := run env (AzureFunctions.deploy this) w in
  timers (trace r)
  = match AzureFunctions.channel this with
    | Some _ => [setInterval 1000; clearInterval]
    | None => []
    end.
Proof.
  intros r. subst r. unfold AzureFunctions.deploy, AzureFunctions.stopDots.
  destruct (AzureFunctions.channel this); executed; reflexivity.
Qed.

(** X12. [AzureFunctions.deploy] never returns [false] and never writes the
    configuration.  The only value it reads is [functionAppId], and the
    command [azureFunctions.deploy] receives the folder and that value as it
    was read, [undefined] included: there is no check that a function app was
    provisioned.  It returns [true] exactly when the command resolved. *)
Theorem deploy_outcomes {W : Type} (env : Env W) (w : W) (this : AzureFunctions.t) :
  let r := run env (AzureFunctions.deploy this) w in
  outcome r <> Returned false /\
  omap access_of (trace r) = [Reads ConfigKey.functionAppId] /\
  (forall id,
      omap read_of (trace r) = [(ConfigKey.functionAppId, id)] ->
      omap command_of (trace r) =
        [ ("azureFunctions.deploy",
           [AString (AzureFunctions.azureFunctionsPath this); AOptString id]) ]) /\
  (outcome r = Returned true <->
   omap command_done (trace r) = ["azureFunctions.deploy"]).
Proof.
  intros r. subst r. unfold AzureFunctions.deploy, AzureFunctions.stopDots.
  destruct (AzureFunctions.channel this); executed.
  all: repeat split; try discriminate; auto.
  all: intros; simpl in *; congruence.
Qed.

(** ** The accesses to the configuration *)

(** X13. The methods keep to their keys.  [IoTHub.provision] reads nothing
    and writes only the three keys of the hub; [AzureFunctions.provision]
    writes only [functionAppId], first, and then reads only the three keys of
    the hub, in a fixed order. *)
Theorem configuration_accesses {W : Type} (env : Env W) (w : W)
  (iothub : IoTHub.t) (functions : AzureFunctions.t) :
  (exists n,
      omap access_of (trace (run env (IoTHub.provision iothub) w))
      = take n [ Writes ConfigKey.iotHubConnectionString;
                 Writes ConfigKey.eventHubConnectionString;
                 Writes ConfigKey.eventHubConnectionPath ]) /\
  (exists n,
      omap access_of (trace (run env (AzureFunctions.provision functions) w))
      = take n [ Writes ConfigKey.functionAppId;
                 Reads ConfigKey.eventHubConnectionString;
                 Reads ConfigKey.eventHubConnectionPath;
                 Reads ConfigKey.iotHubConnectionString ]).
Proof.
  split.
  - unfold IoTHub.provision, IoTHub.report, IoTHub.report_JSON. executed.
    all: first [ exists 0; reflexivity | exists 1; reflexivity
               | exists 2; reflexivity | exists 3; reflexivity ].
  - executed.
    all: first [ exists 0; reflexivity | exists 1; reflexivity
               | exists 2; reflexivity | exists 3; reflexivity
               | exists 4; reflexivity ].
Qed.

(** ** More on [IoTHub.provision] *)

(** X14. Unless a call is rejected, [IoTHub.provision] persists all or
    nothing: either it returns [true] after three updates, or it makes no
    update at all, and then returns [false] or throws one of its own errors.
    Its own errors are thrown before anything is persisted. *)
Theorem provision_all_or_nothing {W : Type} (env : Env W) (w : W)
  (this : IoTHub.t) :
  let r := run env (IoTHub.provision this) w in
  (rejections (trace r) = [] ->
   (outcome r = Returned true /\ length (updates (trace r)) = 3) \/
   (outcome r <> Returned true /\ updates (trace r) = [])) /\
  (forall e, outcome r = Thrown e ->
             (forall x, e <> Rejected x) -> updates (trace r) = []).
Proof.
  intros r. subst r. unfold IoTHub.provision, IoTHub.report, IoTHub.report_JSON.
  executed.
  all: split;
    [ intros Hrej; first [ discriminate Hrej
                         | left; split; reflexivity
                         | right; split; [discriminate | reflexivity] ]
    | intros err Herr Hown; first [ reflexivity | discriminate Herr
                                  | exfalso; injection Herr as <-;
                                    eapply Hown; reflexivity ] ].
Qed.

Lemma provision_all_or_nothing_witness :
  (outcome runHub = Returned true /\ length (updates (trace runHub)) = 3) \/
  (outcome runHub <> Returned true /\ updates (trace runHub) = []).
Proof.
  apply (proj1 (provision_all_or_nothing scripted world0 hubComponent)).
  reflexivity.
Defined.

(** X15. [IoTHub.provision] returns [false] in three cases only: the quick
    pick was dismissed; the item picked has another detail than 'select' and
    'create', and then the toolkit was looked up but not called; or the
    toolkit resolved to no hub.  No hub was returned and nothing was
    persisted. *)
Theorem provision_false {W : Type} (env : Env W) (w : W) (this : IoTHub.t) :
  let r := run env (IoTHub.provision this) w in
  outcome r = Returned false ->
  hubs (trace r) = [] /\ updates (trace r) = [] /\ rejections (trace r) = [] /\
  ( omap picked (trace r) = [None] /\
    steps (trace r) = [Pick (inr IoTHub.provisionIothubSelection)]
    \/
    (exists selection,
        omap picked (trace r) = [Some selection] /\
        detail selection <> Some "select" /\ detail selection <> Some "create" /\
        steps (trace r) = [Pick (inr IoTHub.provisionIothubSelection); FindToolkit])
    \/
    (exists selection hubStep,
        omap picked (trace r) = [Some selection] /\
        (detail selection = Some "select" /\ hubStep = SelectHub \/
         detail selection = Some "create" /\ hubStep = CreateHub) /\
        steps (trace r)
        = [Pick (inr IoTHub.provisionIothubSelection); FindToolkit; hubStep]) ).
Proof.
  intros r. subst r. unfold IoTHub.provision, IoTHub.report, IoTHub.report_JSON.
  executed; try discriminate; choices; intros _.
  all: repeat (split; [reflexivity|]).
  all: first [ left; split; reflexivity
             | right; left; eexists; split; [reflexivity|];
               repeat split; (assumption || reflexivity)
             | right; right; do 2 eexists; split; [reflexivity|];
               split; [|reflexivity]; tauto ].
Qed.

Lemma provision_false_witness :
  hubs (trace runDismissed) = [] /\ updates (trace runDismissed) = [] /\ rejections (trace runDismissed) = [] /\
  ( omap picked (trace runDismissed) = [None] /\
    steps (trace runDismissed) = [Pick (inr IoTHub.provisionIothubSelection)]
    \/
    (exists selection,
        omap picked (trace runDismissed) = [Some selection] /\
        detail selection <> Some "select" /\ detail selection <> Some "create" /\
        steps (trace runDismissed) = [Pick (inr IoTHub.provisionIothubSelection); FindToolkit])
    \/
    (exists selection hubStep,
        omap picked (trace runDismissed) = [Some selection] /\
        (detail selection = Some "select" /\ hubStep = SelectHub \/
         detail selection = Some "create" /\ hubStep = CreateHub) /\
        steps (trace runDismissed)
        = [Pick (inr IoTHub.provisionIothubSelection); FindToolkit; hubStep]) ).
Proof.
  apply (provision_false scripted worldDismissed hubComponent). reflexivity.
Defined.

(** X16. What [IoTHub.provision] writes to the output channel: nothing when
    it has no channel; and with a channel, the line 'IoT Hub provision
    succeeded.' is the last one written exactly when it returns [true]. *)
Theorem provision_reports_success {W : Type} (env : Env W) (w : W)
  (this : IoTHub.t) :
  let r := run env (IoTHub.provision this) w in
  match IoTHub.channel this with
  | None => omap output_of (trace r) = []
  | Some ch =>
      last (omap output_of (trace r))
      = Some (channel_appendLine ch "IoT Hub provision succeeded.")
      <-> outcome r = Returned true
  end.
Proof.
  intros r. subst r. unfold IoTHub.provision, IoTHub.report, IoTHub.report_JSON.
  destruct (IoTHub.channel this); executed.
  all: first [ reflexivity | split; intros H; first [ reflexivity | discriminate H ] ].
Qed.

(** ** More on [AzureFunctions.provision] *)

(** X17. When [azureFunctions.createFunctionApp] resolves to nothing
    ([undefined] or the empty string), [AzureFunctions.provision] throws
    'Unable to create Azure Functions application...': the configuration is
    not accessed and the ARM client is not called.  [provision] returns
    [false] only when that command was not executed at all. *)
Theorem provision_without_app {W : Type} (env : Env W) (w : W)
  (this : AzureFunctions.t) :
  let r := run env (AzureFunctions.provision this) w in
  (omap command_done (trace r) = ["azureFunctions.createFunctionApp"] ->
   omap app_created (trace r) = [] \/ omap app_created (trace r) = [""] ->
   outcome r = Thrown (JsError "Unable to create Azure Functions application. Please check the error and retry.") /\
   omap access_of (trace r) = [] /\
   omap arm_of (trace r) = []) /\
  (outcome r = Returned false -> omap command_of (trace r) = []).
Proof.
  intros r. subst r. executed.
  all: split; [intros Hdone Happ | intros Hfalse; first [reflexivity | discriminate Hfalse]].
  all: simpl in Hdone; try discriminate Hdone.
  all: destruct Happ as [Happ | Happ]; try discriminate Happ.
  all: try (repeat split; reflexivity).
  all: injection Happ as ->; discriminate.
Qed.

Lemma provision_without_app_witness :
  outcome runNoApp = Thrown (JsError "Unable to create Azure Functions application. Please check the error and retry.") /\
  omap access_of (trace runNoApp) = [] /\
  omap arm_of (trace runNoApp) = [].
Proof.
  apply (proj1 (provision_without_app scripted (set_created None worldUnprovisioned)
                  functions0)).
  - reflexivity.
  - left. reflexivity.
Defined.

(** X18. [AzureFunctions.provision] calls the ARM client only after all its
    validations passed: both event hub values were read and are not empty,
    the credentials of the subscription picked were found, and the resource
    group and the site were parsed from the function app id.  The client is
    built with those credentials for that subscription, and the settings are
    read at that resource group and site. *)
Theorem arm_after_validation {W : Type} (env : Env W) (w : W)
  (this : AzureFunctions.t) :
  let r := run env (AzureFunctions.provision this) w in
  omap arm_of (trace r) <> [] ->
  exists item subscriptionId id connection path iot credential resourceGroup siteName,
    omap picked (trace r) = [Some item] /\
    description item = Some subscriptionId /\
    omap app_created (trace r) = [id] /\
    omap read_of (trace r) =
      [ (ConfigKey.eventHubConnectionString, Some connection);
        (ConfigKey.eventHubConnectionPath, Some path);
        (ConfigKey.iotHubConnectionString, iot) ] /\
    connection <> "" /\ path <> "" /\
    AzureFunctions.getCredentialFromSubscriptionId this subscriptionId
    = inr (Some credential) /\
    AzureFunctions.capture "/resourceGroups/"
      "Cannot parse resource group from function app ID." id = inr resourceGroup /\
    AzureFunctions.capture "/sites/"
      "Cannot parse function app name from function app ID." id = inr siteName /\
    omap client_of (trace r) = [(credential, subscriptionId)] /\
    Forall (fun t => t = (resourceGroup, siteName)) (omap settings_target (trace r)).
Proof.
  intros r. subst r. executed.
  all: intros Harm; simpl in Harm; try congruence; clear Harm.
  all: truthful.
  all: do 9 eexists; repeat (split; [first [reflexivity | eassumption]|]).
  all: repeat constructor.
Qed.

Lemma arm_after_validation_witness :
  exists item subscriptionId id connection path iot credential resourceGroup siteName,
    omap picked (trace runProvisioned) = [Some item] /\
    description item = Some subscriptionId /\
    omap app_created (trace runProvisioned) = [id] /\
    omap read_of (trace runProvisioned) =
      [ (ConfigKey.eventHubConnectionString, Some connection);
        (ConfigKey.eventHubConnectionPath, Some path);
        (ConfigKey.iotHubConnectionString, iot) ] /\
    connection <> "" /\ path <> "" /\
    AzureFunctions.getCredentialFromSubscriptionId functions0 subscriptionId
    = inr (Some credential) /\
    AzureFunctions.capture "/resourceGroups/"
      "Cannot parse resource group from function app ID." id = inr resourceGroup /\
    AzureFunctions.capture "/sites/"
      "Cannot parse function app name from function app ID." id = inr siteName /\
    omap client_of (trace runProvisioned) = [(credential, subscriptionId)] /\
    Forall (fun t => t = (resourceGroup, siteName))
      (omap settings_target (trace runProvisioned)).
Proof.
  apply (arm_after_validation scripted worldProvisioned functions0). discriminate.
Defined.

(** X19. When the function app that was created has an id of the ARM form
    (see X6), a run of [AzureFunctions.provision] that returns [true] has read
    and written the application settings of that resource group and that
    site. *)
Theorem provision_targets_site {W : Type} (env : Env W) (w : W)
  (this : AzureFunctions.t) (subscription resourceGroup site : string) :
  let r := run env (AzureFunctions.provision this) w in
  Regex.free_of "/" subscription ->
  Regex.free_of "/" resourceGroup ->
  Regex.free_of "/" site ->
  subscription <> "resourceGroups" ->
  subscription <> "sites" ->
  resourceGroup <> "sites" ->
  In (armId subscription resourceGroup site) (omap app_created (trace r)) ->
  outcome r = Returned true ->
  omap settings_target (trace r)
  = [(resourceGroup, site); (resourceGroup, site)].
Proof.
  intros r Hs Hr Ha Hn1 Hn2 Hn3.
  destruct (armId_captures _ _ _ Hs Hr Ha Hn1 Hn2 Hn3) as [Hrg Hsite].
  subst r. executed.
  all: intros Hin Hout; try discriminate Hout; simpl in Hin.
  all: destruct Hin as [Hin | []]; subst; simpl in *.
  all: congruence.
Qed.

Lemma provision_targets_site_witness :
  omap settings_target (trace runProvisioned) = [("rg", "app"); ("rg", "app")].
Proof.
  apply (provision_targets_site scripted worldProvisioned functions0
           "sub-1" "rg" "app");
    first [ discriminate | left; reflexivity | reflexivity
          | simpl; repeat split; discriminate ].
Defined.

(** X20. Injecting the same values again changes nothing: the settings after
    two provisions with the same configuration are the settings after one.
    The three keys are overwritten whatever they held. *)
Theorem inject_idempotent (d : StringDictionary) (a b c : option string) :
  AzureFunctions.inject (AzureFunctions.inject d a b c) a b c
  = AzureFunctions.inject d a b c /\
  forall a' b' c',
    AzureFunctions.inject (AzureFunctions.inject d a' b' c') a b c
    = AzureFunctions.inject d a b c.
Proof.
  assert (forall a' b' c',
             AzureFunctions.inject (AzureFunctions.inject d a' b' c') a b c
             = AzureFunctions.inject d a b c) as H.
  { intros a' b' c'. unfold AzureFunctions.inject. simpl. do 2 f_equal.
    apply map_eq. intros k.
    destruct (decide (k = "iotHubConnectionString")) as [->|H1];
      [rewrite !lookup_insert_eq; reflexivity|].
    rewrite (lookup_insert_ne _ "iotHubConnectionString") by congruence.
    rewrite (lookup_insert_ne (<[_:=_]> (<[_:=_]> (default ∅ (properties d)))) "iotHubConnectionString") by congruence.
    destruct (decide (k = "eventHubConnectionPath")) as [->|H2];
      [rewrite !lookup_insert_eq; reflexivity|].
    rewrite !(lookup_insert_ne _ "eventHubConnectionPath") by congruence.
    destruct (decide (k = "eventHubConnectionString")) as [->|H3];
      [rewrite !lookup_insert_eq; reflexivity|].
    rewrite !(lookup_insert_ne _ "eventHubConnectionString") by congruence.
    rewrite !(lookup_insert_ne _ "iotHubConnectionString") by congruence.
    rewrite !(lookup_insert_ne _ "eventHubConnectionPath") by congruence.
    rewrite !(lookup_insert_ne _ "eventHubConnectionString") by congruence.
    reflexivity. }
  split; [apply H | exact H].
Qed.

(** ** More on [AzureOperator.Provision] *)

(** X21. [AzureOperator.Provision] does not wait for the project: once the
    project is built, it calls [load] with the root path as it is and then
    [provision], whatever [load] answered, and returns, whatever [provision]
    answered; a rejection of either does not reach the caller.  Without a
    root path, [logError] is called first, and when it returns, the project
    is still built and loaded, from a path that is missing. *)
Theorem Provision_does_not_wait {W : Type} (env : Env W) (w : W)
  (rootPath : option string) (context : ExtensionContext) :
  let r := run env (AzureOperator.Provision rootPath context) w in
  let report :=
    if JS.truthy rootPath then []
    else [LogError "Unable to find the root path, please open an IoT Studio project" true] in
  forall project,
    picked_project (trace r) = Some project ->
    outcome r = Returned tt /\
    omap operator_step (trace r)
    = (report ++ [NewProject; Load project rootPath; ProvisionProject project])%list.
Proof.
  intros r report. subst r report. unfold AzureOperator.Provision.
  destruct (JS.truthy rootPath); executed.
  all: intros project; unfold picked_project; simpl; intros E;
    first [discriminate E | injection E as <-; split; reflexivity].
Qed.

Lemma Provision_does_not_wait_witness :
  outcome (run scripted (AzureOperator.Provision None (ExtContext 0))
             (set_fuse (Some 2) world0)) = Returned tt /\
  omap operator_step
    (trace (run scripted (AzureOperator.Provision None (ExtContext 0))
              (set_fuse (Some 2) world0)))
  = [ LogError "Unable to find the root path, please open an IoT Studio project" true;
      NewProject; Load (Project 0) None; ProvisionProject (Project 0) ].
Proof.
  apply (Provision_does_not_wait scripted (set_fuse (Some 2) world0) None
           (ExtContext 0) (Project 0)).
  reflexivity.
Defined.

(** X22. The errors that [IoTHub.provision] throws itself, and when: the
    toolkit is not installed, and then it is not called; the hub that the
    toolkit returned has no connection string, or an empty one; the
    connection string does not contain 'SharedAccessKey='; or the key was
    parsed and the hub has no events endpoint, which is a [TypeError]. *)
Theorem provision_own_errors {W : Type} (env : Env W) (w : W) (this : IoTHub.t) :
  let r := run env (IoTHub.provision this) w in
  forall e,
    outcome r = Thrown e ->
    (forall x, e <> Rejected x) ->
    (e = JsError "Azure IoT Toolkit is not installed. Please install it from Marketplace." /\
     omap toolkit_found (trace r) = [None] /\
     steps (trace r) = [Pick (inr IoTHub.provisionIothubSelection); FindToolkit])
    \/
    (exists iothub,
        hubs (trace r) = [iothub] /\
        ( (JS.truthy (iotHubConnectionString iothub) = false /\
           e = JsError "IoT Hub provision failed. Please check output window for detail.")
          \/
          (exists connectionString,
              iotHubConnectionString iothub = Some connectionString /\
              connectionString <> "" /\
              ~ Regex.occurs "SharedAccessKey=" connectionString /\
              e = JsError "Cannot parse shared access key from IoT Hub connection string. Please retry Azure Provision.")
          \/
          (exists connectionString key message,
              iotHubConnectionString iothub = Some connectionString /\
              IoTHub.sharedAccessKey connectionString = inr key /\
              events iothub = None /\
              e = TypeError message) )).
Proof.
  intros r. subst r. unfold IoTHub.provision, IoTHub.report, IoTHub.report_JSON.
  executed.
  all: intros err Herr Hown; try discriminate Herr; injection Herr as <-.
  all: try (exfalso; eapply Hown; reflexivity).
  all: try (left; repeat split; reflexivity).
  all: right; eexists; split; [reflexivity|].
  all: try (left; split; [assumption | reflexivity]).
  all: right.
  all: match goal with
       | H : JS.truthy (iotHubConnectionString _) = true |- _ =>
           destruct (JSFacts.truthy_Some _ H) as (cs & Hcs & Hne);
           rewrite Hcs in *; simpl in *
       end.
  all: try match goal with
         | H : IoTHub.sharedAccessKey _ = inl _ |- _ =>
             destruct (sharedAccessKey_inl _ _ H) as [-> Hno];
             left; exists cs; repeat split; assumption
         end.
  all: right.
  all: match goal with
       | H : IoTHub.eventsOf ?h = inl _ |- _ =>
           unfold IoTHub.eventsOf in H;
           destruct (events h) eqn:Hev; [discriminate H|];
           injection H as <-
       end.
  all: do 3 eexists; repeat split; eassumption || reflexivity.
Qed.

Lemma provision_own_errors_witness :
  (JsError "Cannot parse shared access key from IoT Hub connection string. Please retry Azure Provision."
   = JsError "Azure IoT Toolkit is not installed. Please install it from Marketplace." /\
   omap toolkit_found (trace runNoKey) = [None] /\
   steps (trace runNoKey) = [Pick (inr IoTHub.provisionIothubSelection); FindToolkit])
  \/
  (exists iothub,
      hubs (trace runNoKey) = [iothub] /\
      ( (JS.truthy (iotHubConnectionString iothub) = false /\
         JsError "Cannot parse shared access key from IoT Hub connection string. Please retry Azure Provision."
         = JsError "IoT Hub provision failed. Please check output window for detail.")
        \/
        (exists connectionString,
            iotHubConnectionString iothub = Some connectionString /\
            connectionString <> "" /\
            ~ Regex.occurs "SharedAccessKey=" connectionString /\
            JsError "Cannot parse shared access key from IoT Hub connection string. Please retry Azure Provision."
            = JsError "Cannot parse shared access key from IoT Hub connection string. Please retry Azure Provision.")
        \/
        (exists connectionString key message,
            iotHubConnectionString iothub = Some connectionString /\
            IoTHub.sharedAccessKey connectionString = inr key /\
            events iothub = None /\
            JsError "Cannot parse shared access key from IoT Hub connection string. Please retry Azure Provision."
            = TypeError message) )).
Proof.
  apply (provision_own_errors scripted worldNoKey hubComponent).
  - reflexivity.
  - discriminate.
Defined.

(** ** More theorems at concrete runs *)

Lemma create_outcomes_witness :
  outcome (run scripted (AzureFunctions.create functions0) (set_folder false world0))
  = Thrown (JsError ("Azure Functions folder doesn't exist: " +:+ "/work/Functions")) /\
  omap command_of
    (trace (run scripted (AzureFunctions.create functions0) (set_folder false world0)))
  = [].
Proof.
  apply (proj1 (proj2 (proj2 (create_outcomes scripted (set_folder false world0)
                                functions0)))).
  reflexivity.
Defined.

Lemma deploy_outcomes_witness :
  omap command_of (trace (run scripted (AzureFunctions.deploy functions0) world0))
  = [ ("azureFunctions.deploy", [AString "/work/Functions"; AOptString None]) ].
Proof.
  apply (proj1 (proj2 (proj2 (deploy_outcomes scripted world0 functions0))) None).
  reflexivity.
Defined.

Lemma provision_reports_success_witness :
  last (omap output_of (trace runHub))
  = Some (channel_appendLine (Channel 0) "IoT Hub provision succeeded.").
Proof.
  apply (proj2 (provision_reports_success scripted world0 hubComponent)).
  reflexivity.
Defined.
